(** * ModBot: the webhook rule, the token validators, channel authorisation,
      the moderation-log route and the channel-settings route

    A shallow embedding of the TypeScript sources

      - [app/rules/webhook.ts]                       (module [WebhookRule])
      - [~/lib/utils.server]                         (module [UtilsServer])
      - the route that lists the moderation log and
        takes the manual actions on its entries      (module [LogsRoute])
      - the route of the channel settings            (module [SettingsRoute])
      - [app/routes/install.tsx]                     (module [InstallRoute])

    ([UtilsHelpers] and [LogsScreen] hold the remaining helpers of
    [utils.server] and the links and menus of the log page.)

    followed by the properties proved about them.  Promises are modelled by
    their settled state, the database by a record of tables threaded through
    a state-and-exception monad, and everything the handlers obtain from
    outside (the HTTP exchange, the on-chain reads, the unhide API, the
    session, the clock) is an explicit input. *)

From Stdlib Require Import ZArith Lia Ascii String.
From stdpp Require Import base option list sorting gmap.

Local Open Scope Z_scope.

(* ===================================================================== *)
(** * Part I: the embedding                                               *)
(* ===================================================================== *)

(** ** JavaScript strings and values *)

Module Js.

(** A JavaScript string is a sequence of UTF-16 code units. *)
Abbreviation jsstring := (list N).

(** A string literal of the source (all of them are ASCII). *)
Definition lit (s : string) : jsstring :=
  N_of_ascii <$> list_ascii_of_string s.

(** [s.substring(0, n)] for a literal [n >= 0]. *)
Definition substring0 (n : nat) (s : jsstring) : jsstring := take n s.

(** [s.toLowerCase()] on the ASCII letters; code units outside ASCII are
    left alone (none of them lower-cases to a hexadecimal digit or to
    [x], the only characters of the addresses compared below). *)
Definition lower_unit (c : N) : N :=
  if ((65 <=? c) && (c <=? 90))%N then (c + 32)%N else c.
Definition toLowerCase (s : jsstring) : jsstring := lower_unit <$> s.

(** Values as they come out of [JSON.parse] or out of an untyped record
    ([any]).  The payload of a number is never inspected by the code
    modelled here. *)
#[warnings="-register-all"]
Inductive value : Type :=
| VUndefined
| VNull
| VBool (b : bool)
| VNum (n : Z)
| VStr (s : jsstring)
| VArr (items : list value)
| VObj (props : list (jsstring * value)).

(** What a handler can throw and what a promise can be rejected with. *)
Inductive thrown : Type :=
| TypeError
| AxiosError (code : option jsstring) (status : option Z)
| InvariantError (msg : jsstring)
| Redirect (to : jsstring) (status : Z)
| RecordNotFound
| InvalidAddressError
| ValidationError
| ExternalError.

(** A settled promise, also used for a synchronous computation that may
    throw. *)
Inductive settled (A : Type) : Type :=
| Fulfilled (a : A)
| Rejected (e : thrown).
Arguments Fulfilled {A} a.
Arguments Rejected {A} e.

(** [p.then(f)] and [p.catch(g)]. *)
Definition andThen {A B} (p : settled A) (f : A -> settled B) : settled B :=
  match p with
  | Fulfilled a => f a
  | Rejected e => Rejected e
  end.
Definition orCatch {A} (p : settled A) (g : thrown -> settled A) : settled A :=
  match p with
  | Fulfilled a => Fulfilled a
  | Rejected e => g e
  end.

Fixpoint assoc (k : jsstring) (props : list (jsstring * value)) : option value :=
  match props with
  | [] => None
  | (k', v) :: rest => if decide (k' = k) then Some v else assoc k rest
  end.

(** [o.k] for a key [k] that no prototype defines: reading a property of
    [undefined] or [null] is a TypeError, an object yields its own
    property, every other value yields [undefined]. *)
Definition getProp (o : value) (k : jsstring) : settled value :=
  match o with
  | VUndefined | VNull => Rejected TypeError
  | VObj props => Fulfilled (default VUndefined (assoc k props))
  | _ => Fulfilled VUndefined
  end.

(** [m?.substring(0, 75)]: short-circuits to [undefined] on a nullish
    [m], calls the method on a string, and is a TypeError (not a
    function) on every other value. *)
Definition optSubstring0 (n : nat) (m : value) : settled (option jsstring) :=
  match m with
  | VUndefined | VNull => Fulfilled None
  | VStr s => Fulfilled (Some (substring0 n s))
  | _ => Rejected TypeError
  end.

(** [!s] for a string-or-undefined: only [undefined] and the empty
    string are falsy. *)
Definition falsy (m : option jsstring) : bool :=
  match m with
  | None | Some [] => true
  | Some (_ :: _) => false
  end.

(** [v === "..."] against a string literal. *)
Definition strictEqStr (v : value) (s : jsstring) : bool :=
  match v with
  | VStr s' => bool_decide (s' = s)
  | _ => false
  end.

(** Decimal rendering of a non-negative integer in a template literal. *)
Definition digit (d : N) : N := (48 + d)%N.
Fixpoint decimalFuel (fuel : nat) (n : N) (acc : jsstring) : jsstring :=
  match fuel with
  | O => acc
  | S fuel' =>
      let acc' := digit (n mod 10) :: acc in
      if (n / 10 =? 0)%N then acc' else decimalFuel fuel' (n / 10)%N acc'
  end.
Definition decimal (n : N) : jsstring := decimalFuel (S (N.to_nat n)) n [].

End Js.
Import Js.

(** ** [app/rules/webhook.ts] *)

Module WebhookRule.

Record CheckResult := { result : bool; message : jsstring }.

(** The part of [CheckFunctionArgs] the function reads: [channel.id] and
    [rule.args.{url, failureMode}].  [user] is only forwarded in the
    request body.  [rule.args] is untyped, so [failureMode] is any value. *)
Record CheckFunctionArgs := {
  channel_id : jsstring;
  url : jsstring;
  failureMode : value
}.

Record response := { status : Z; data : value }.

(** What happens on the wire after the POST is issued. *)
Inductive exchange : Type :=
| Replied (r : response)            (* a response arrived in time *)
| NoReply (code : option jsstring)  (* timeout, refused, DNS, ...: [err.code] *).

Definition maxTimeout : N := 5000.

Definition validateStatus (status : Z) : bool :=
  ((200 <=? status) && (status <? 300)) || (status =? 400).

(** axios settles the request: a response whose status [validateStatus]
    accepts fulfils the promise, any other response rejects it with
    ERR_BAD_REQUEST (4xx) or ERR_BAD_RESPONSE (5xx), and a transport
    failure rejects it with the transport's code (a timeout is
    ECONNABORTED). *)
Definition badStatusCode (status : Z) : option jsstring :=
  if (400 <=? status) && (status <? 500) then Some (lit "ERR_BAD_REQUEST")
  else if (500 <=? status) && (status <? 600) then Some (lit "ERR_BAD_RESPONSE")
  else None.

Definition axios_post (x : exchange) : settled response :=
  match x with
  | Replied r =>
      if validateStatus (status r) then Fulfilled r
      else Rejected (AxiosError (badStatusCode (status r)) (Some (status r)))
  | NoReply code => Rejected (AxiosError code None)
  end.

Definition errCode (e : thrown) : option jsstring :=
  match e with
  | AxiosError code _ => code
  | _ => None
  end.

(** The [.then] callback (lines 29-39). *)
Definition onResponse (r : response) : settled CheckResult :=
  andThen (getProp (data r) (lit "message")) (fun m =>
  andThen (optSubstring0 75 m) (fun message0 =>
  let message1 :=
    if falsy message0 then
      (if status r =? 200 then lit "Webhook rule triggered"
       else lit "Webhook rule did not trigger")
    else default [] message0 in
  Fulfilled {| result := (status r =? 200); message := message1 |})).

(** The [.catch] callback (lines 40-65); the [console.error] line has no
    part in the value returned. *)
Definition onError (failureMode : value) (err : thrown) : settled CheckResult :=
  if bool_decide (errCode err = Some (lit "ECONNABORTED")) then
    Fulfilled {|
      result := if strictEqStr failureMode (lit "trigger") then true else false;
      message :=
        if strictEqStr failureMode (lit "trigger")
        then lit "Webhook didn't respond within " ++ decimal (maxTimeout / 1000)
             ++ lit "s, rule is set to trigger on failure"
        else lit "Webhook did not respond within " ++ decimal (maxTimeout / 1000)
             ++ lit "s, rule is set to not trigger on failure. " |}
  else
    Fulfilled {|
      result := if strictEqStr failureMode (lit "trigger") then true else false;
      message :=
        if strictEqStr failureMode (lit "trigger")
        then lit "Webhook failed but rule is set to trigger on failure"
        else lit "Webhook failed and rule is set to not trigger on failure" |}.

(** [axios.post(...).then(onResponse).catch(onError)] *)
Definition webhook (args : CheckFunctionArgs) (x : exchange) : settled CheckResult :=
  orCatch (andThen (axios_post x) onResponse) (onError (failureMode args)).

End WebhookRule.


(** ** The database ([~/lib/db.server], a Prisma client) *)

Module Prisma.

(** Rows.  Tables with a unique key are finite maps from that key to the
    remaining columns. *)
Record User := { user_name : jsstring }.

Record ModeratedChannelRow := {
  row_userId : jsstring;               (* the lead *)
  row_disableBannedList : Z
}.

(** A channel as [findUnique] returns it. *)
Record ModeratedChannel := {
  mc_id : jsstring;
  mc_userId : jsstring;
  mc_disableBannedList : Z
}.

Record Comods := { comod_fid : jsstring; comod_channelId : jsstring }.

Record Cooldown := { active : bool; expiresAt : option Z }.

Record ModerationLog := {
  log_id : N;
  log_action : jsstring;
  log_affectedUserFid : jsstring;
  log_affectedUsername : jsstring;
  log_affectedUserAvatarUrl : option jsstring;
  log_actor : jsstring;
  log_channelId : jsstring;
  log_reason : jsstring;
  log_castHash : option jsstring;
  log_createdAt : Z
}.

Record CastLog := {
  cast_hash : jsstring;
  cast_replyCount : Z;
  cast_createdAt : Z;
  cast_updatedAt : Z;
  cast_status : jsstring;
  cast_channelId : jsstring
}.

Record Db := {
  user : gmap jsstring User;                        (* by id *)
  moderatedChannel : gmap jsstring ModeratedChannelRow; (* by id *)
  comods : list Comods;
  cooldown : gmap (jsstring * jsstring) Cooldown;   (* by (affectedUserId, channelId) *)
  moderationLog : list ModerationLog;               (* in insertion order *)
  castLog : list CastLog;
  logSeq : N                                        (* next generated log id *)
}.

(** Handlers run against the database and may throw; what was written
    before the throw stays written (no handler opens a transaction). *)
Definition M (A : Type) : Type := Db -> settled A * Db.

#[export] Instance M_ret : MRet M := fun A a db => (Fulfilled a, db).
#[export] Instance M_bind : MBind M := fun A B f m db =>
  match m db with
  | (Fulfilled a, db') => f a db'
  | (Rejected e, db') => (Rejected e, db')
  end.

Definition throw {A} (e : thrown) : M A := fun db => (Rejected e, db).
Definition query {A} (f : Db -> A) : M A := fun db => (Fulfilled (f db), db).
Definition await {A} (p : settled A) : M A := fun db => (p, db).

Definition set_moderatedChannel (t : gmap jsstring ModeratedChannelRow) (db : Db) : Db :=
  {| user := user db; moderatedChannel := t; comods := comods db;
     cooldown := cooldown db; moderationLog := moderationLog db;
     castLog := castLog db; logSeq := logSeq db |}.
Definition set_comods (t : list Comods) (db : Db) : Db :=
  {| user := user db; moderatedChannel := moderatedChannel db; comods := t;
     cooldown := cooldown db; moderationLog := moderationLog db;
     castLog := castLog db; logSeq := logSeq db |}.
Definition set_cooldown (t : gmap (jsstring * jsstring) Cooldown) (db : Db) : Db :=
  {| user := user db; moderatedChannel := moderatedChannel db; comods := comods db;
     cooldown := t; moderationLog := moderationLog db;
     castLog := castLog db; logSeq := logSeq db |}.
Definition set_moderationLog (t : list ModerationLog) (seq : N) (db : Db) : Db :=
  {| user := user db; moderatedChannel := moderatedChannel db; comods := comods db;
     cooldown := cooldown db; moderationLog := t;
     castLog := castLog db; logSeq := seq |}.
Definition set_castLog (t : list CastLog) (db : Db) : Db :=
  {| user := user db; moderatedChannel := moderatedChannel db; comods := comods db;
     cooldown := cooldown db; moderationLog := moderationLog db;
     castLog := t; logSeq := logSeq db |}.

Definition mkChannel (id : jsstring) (r : ModeratedChannelRow) : ModeratedChannel :=
  {| mc_id := id; mc_userId := row_userId r;
     mc_disableBannedList := row_disableBannedList r |}.

(** [db.user.findFirstOrThrow({ where: { id } })] *)
Definition user_findFirstOrThrow (id : jsstring) : M User := fun db =>
  match user db !! id with
  | Some u => (Fulfilled u, db)
  | None => (Rejected RecordNotFound, db)
  end.

(** [db.cooldown.update({ where: { affectedUserId_channelId }, data:
    { active } })]: Prisma's [update] returns the updated record and
    throws when no record has the key. *)
Definition cooldown_update (key : jsstring * jsstring) (a : bool) : M Cooldown := fun db =>
  match cooldown db !! key with
  | Some c =>
      let c' := {| active := a; expiresAt := expiresAt c |} in
      (Fulfilled c', set_cooldown (<[key := c']> (cooldown db)) db)
  | None => (Rejected RecordNotFound, db)
  end.

(** The [data] of a [db.moderationLog.create]; [id] and [createdAt] take
    their column defaults, [castHash] stays null. *)
Record LogData := {
  d_action : jsstring;
  d_affectedUserFid : jsstring;
  d_affectedUsername : jsstring;
  d_affectedUserAvatarUrl : option jsstring;
  d_actor : jsstring;
  d_channelId : jsstring;
  d_reason : jsstring
}.

Definition moderationLog_create (now : Z) (d : LogData) : M ModerationLog := fun db =>
  let row := {|
    log_id := logSeq db;
    log_action := d_action d;
    log_affectedUserFid := d_affectedUserFid d;
    log_affectedUsername := d_affectedUsername d;
    log_affectedUserAvatarUrl := d_affectedUserAvatarUrl d;
    log_actor := d_actor d;
    log_channelId := d_channelId d;
    log_reason := d_reason d;
    log_castHash := None;
    log_createdAt := now |} in
  (Fulfilled row, set_moderationLog (moderationLog db ++ [row]) (logSeq db + 1)%N db).

(** [db.moderationLog.findUnique({ where: { id } })] *)
Definition moderationLog_findUnique (id : N) : M (option ModerationLog) :=
  query (fun db => List.find (fun l => bool_decide (log_id l = id)) (moderationLog db)).

Definition inChannel (channelId : jsstring) (l : ModerationLog) : bool :=
  bool_decide (log_channelId l = channelId).

(** [orderBy: { createdAt: "desc" }]; among rows with equal timestamps
    the engine is free to choose, the model takes what the merge sort
    yields. *)
Definition newerFirst (a b : ModerationLog) : Prop := log_createdAt b <= log_createdAt a.
#[export] Instance newerFirst_dec : RelDecision newerFirst :=
  fun a b => Z_le_dec (log_createdAt b) (log_createdAt a).

(** [db.moderationLog.findMany({ where: { channelId }, take, skip,
    orderBy: { createdAt: "desc" } })] *)
Definition moderationLog_findMany (channelId : jsstring) (take_ skip : Z)
  : M (list ModerationLog) :=
  query (fun db =>
    take (Z.to_nat take_)
      (drop (Z.to_nat skip)
         (merge_sort newerFirst (List.filter (inChannel channelId) (moderationLog db))))).

(** [db.moderationLog.count({ where: { channelId } })] *)
Definition moderationLog_count (channelId : jsstring) : M Z :=
  query (fun db =>
    Z.of_nat (length (List.filter (inChannel channelId) (moderationLog db)))).

(** The four [deleteMany] / [delete] calls of the settings route. *)
Definition comods_deleteMany (channelId : jsstring) : M unit := fun db =>
  (Fulfilled tt,
   set_comods
     (List.filter (fun c => negb (bool_decide (comod_channelId c = channelId))) (comods db)) db).

Definition moderationLog_deleteMany (channelId : jsstring) : M unit := fun db =>
  (Fulfilled tt,
   set_moderationLog
     (List.filter (fun l => negb (inChannel channelId l)) (moderationLog db)) (logSeq db) db).

Definition castLog_deleteMany (channelId : jsstring) : M unit := fun db =>
  (Fulfilled tt,
   set_castLog
     (List.filter (fun c => negb (bool_decide (cast_channelId c = channelId))) (castLog db)) db).

(** [delete] throws when the row does not exist. *)
Definition moderatedChannel_delete (id : jsstring) : M unit := fun db =>
  match moderatedChannel db !! id with
  | Some _ => (Fulfilled tt, set_moderatedChannel (delete id (moderatedChannel db)) db)
  | None => (Rejected RecordNotFound, db)
  end.

(** [db.moderatedChannel.update({ where: { id }, data:
    { disableBannedList } })]; a value that is not an integer is refused
    by the [Int] column. *)
Definition moderatedChannel_update (id : jsstring) (disable : option Z) : M unit := fun db =>
  match disable, moderatedChannel db !! id with
  | None, _ => (Rejected ValidationError, db)
  | Some _, None => (Rejected RecordNotFound, db)
  | Some n, Some r =>
      (Fulfilled tt,
       set_moderatedChannel
         (<[id := {| row_userId := row_userId r; row_disableBannedList := n |}]>
            (moderatedChannel db)) db)
  end.

End Prisma.
Import Prisma.

(** ** [app/lib/utils.server.ts] *)

Module UtilsServer.

(** What a request handler gets from outside the database: the user id
    of the session cookie (if any), the clock, and the outcome of the
    Warpcast unhide call ([~/lib/warpcast.server], not part of these
    sources) for a given cast hash. *)
Record World := {
  sessionUser : option jsstring;
  now : Z;
  unhide : jsstring -> settled unit
}.

Record SessionUser := { su_id : jsstring; su_name : jsstring }.

(** [requireUser]: [authenticator.isAuthenticated] redirects to the login
    page when there is no session, then the user row is re-read. *)
Definition requireUser (w : World) : M SessionUser :=
  match sessionUser w with
  | None => throw (Redirect (lit "/login") 302)
  | Some id =>
      u ← user_findFirstOrThrow id;
      mret {| su_id := id; su_name := user_name u |}
  end.

Record Moderation := { result : bool; channel : option ModeratedChannel }.

Definition isComod (userId channelId : jsstring) (c : Comods) : bool :=
  bool_decide (comod_channelId c = channelId) && bool_decide (comod_fid c = userId).

(** [canUserModerateChannel] (lines 171-209): [findUnique] with
    [where: { id, OR: [{ comods: { some: { fid } } }, { userId }] }]. *)
Definition canUserModerateChannel (userId channelId : jsstring) : M Moderation :=
  found ← query (fun db =>
    match moderatedChannel db !! channelId with
    | Some r =>
        if existsb (isComod userId channelId) (comods db)
           || bool_decide (row_userId r = userId)
        then Some (mkChannel channelId r) else None
    | None => None
    end);
  match found with
  | Some c => mret {| result := true; channel := Some c |}
  | None => mret {| result := false; channel := None |}
  end.

(** [requireUserCanModerateChannel] (lines 134-145) *)
Definition requireUserCanModerateChannel (userId channelId : jsstring)
  : M ModeratedChannel :=
  m ← canUserModerateChannel userId channelId;
  match result m, channel m with
  | true, Some c => mret c
  | _, _ => throw (Redirect (lit "/") 403)
  end.

(** [invariant(v, msg)] of tiny-invariant on an optional string. *)
Definition invariant (v : option jsstring) (msg : jsstring) : M jsstring :=
  match v with
  | Some (c :: s) => mret (c :: s)
  | _ => throw (InvariantError msg)
  end.

(** *** The token validators (lines 434-521) *)

(** The chain access of [./viem.server] and viem, which these sources
    only call: the table of clients, address checksumming (it throws on a
    malformed address), and the two contract reads with their outcome. *)
Record Chain := {
  Client : Type;
  Address : Type;
  clientsByChainId : jsstring -> option Client;
  getAddress : jsstring -> option Address;
  supportsInterface : Client -> Address -> jsstring -> settled bool;
  allowance : Client -> Address -> jsstring -> jsstring -> settled N
}.

Record TokenProps := {
  chainId : option jsstring;
  contractAddress : option jsstring;
  tokenId : option jsstring
}.

(** [getContract({ address: getAddress(a), abi, client })] followed by
    [contract.read]: the address is checksummed first, and a contract
    built without a client has no [read] member. *)
Definition getContractRead (ch : Chain) (chain addr : jsstring)
  : settled (Client ch * Address ch) :=
  match getAddress ch addr with
  | None => Rejected InvalidAddressError
  | Some a =>
      match clientsByChainId ch chain with
      | None => Rejected TypeError
      | Some c => Fulfilled (c, a)
      end
  end.

Definition validateErc1155 (ch : Chain) (props : TokenProps) : settled bool :=
  if falsy (chainId props) || falsy (contractAddress props) then Fulfilled false
  else
    andThen (getContractRead ch (default [] (chainId props))
               (default [] (contractAddress props))) (fun '(client, address) =>
    orCatch (supportsInterface ch client address (lit "0xd9b67a26"))
            (fun _ => Fulfilled false)).

Definition deployers721a : jsstring := lit "0x8ce608ce2b5004397faef1556bfe33bdfbe4696d".

Definition validateErc721 (ch : Chain) (props : TokenProps) : settled bool :=
  if bool_decide (toLowerCase <$> contractAddress props = Some (toLowerCase deployers721a))
  then Fulfilled true
  else if falsy (chainId props) || falsy (contractAddress props) then Fulfilled false
  else
    andThen (getContractRead ch (default [] (chainId props))
               (default [] (contractAddress props))) (fun '(client, address) =>
    orCatch (supportsInterface ch client address (lit "0x80ac58cd"))
            (fun _ => Fulfilled false)).

Definition alwaysAllow : list jsstring :=
  toLowerCase <$> [lit "0xa8a30E0dafCA4156f28d96cCa5671a0eEcA5E407"].

Definition probe : jsstring := lit "0x704CF202792341d79A9Fd6DD97046aa7eF3F4319".

(** [anyAllowance] is the bigint read, or [false] after a failed read;
    [anyAllowance !== false] tells them apart. *)
Definition validateErc20 (ch : Chain) (props : TokenProps) : settled bool :=
  if falsy (chainId props) || falsy (contractAddress props) then Fulfilled false
  else if bool_decide (toLowerCase (default [] (contractAddress props)) ∈ alwaysAllow)
  then Fulfilled true
  else
    andThen (getContractRead ch (default [] (chainId props))
               (default [] (contractAddress props))) (fun '(client, address) =>
    let anyAllowance : settled (option N) :=
      orCatch (andThen (allowance ch client address probe probe)
                 (fun n => Fulfilled (Some n)))
              (fun _ => Fulfilled None) in
    andThen anyAllowance (fun a => Fulfilled (bool_decide (a ≠ None)))).

End UtilsServer.
Import UtilsServer.

(** ** The moderation-log route (page info, [loader], [action], paging links) *)

Module LogsRoute.

(** Numbers here are integers or NaN ([None]); the rounding of integers
    beyond 2^53 is outside the model. *)
Abbreviation number := (option Z).

Definition isNaN (a : number) : bool :=
  match a with Some _ => false | None => true end.
Definition Math_max (a b : number) : number :=
  match a, b with Some x, Some y => Some (Z.max x y) | _, _ => None end.
Definition Math_min (a b : number) : number :=
  match a, b with Some x, Some y => Some (Z.min x y) | _, _ => None end.
Definition minus (a b : number) : number :=
  match a, b with Some x, Some y => Some (x - y) | _, _ => None end.
Definition times (a b : number) : number :=
  match a, b with Some x, Some y => Some (x * y) | _, _ => None end.

(** [parseInt(s)] without a radix: leading white space is skipped, then
    an optional sign, then an optional [0x] selecting base 16, then the
    longest run of digits; no digit at all gives NaN. *)
Definition isWhiteSpace (c : N) : bool :=
  bool_decide (c ∈ [9; 10; 11; 12; 13; 32; 160; 5760; 8232; 8233; 8239; 8287; 12288; 65279]%N)
  || ((8192 <=? c) && (c <=? 8202))%N.

Fixpoint trimStart (s : jsstring) : jsstring :=
  match s with
  | c :: s' => if isWhiteSpace c then trimStart s' else s
  | [] => []
  end.

Definition digitValue (radix : Z) (c : N) : option Z :=
  let v :=
    if ((48 <=? c) && (c <=? 57))%N then Some (Z.of_N c - 48)
    else if ((97 <=? c) && (c <=? 122))%N then Some (Z.of_N c - 87)
    else if ((65 <=? c) && (c <=? 90))%N then Some (Z.of_N c - 55)
    else None in
  match v with
  | Some d => if d <? radix then Some d else None
  | None => None
  end.

Fixpoint digits (radix : Z) (acc : number) (s : jsstring) : number :=
  match s with
  | c :: s' =>
      match digitValue radix c with
      | Some d => digits radix (Some (default 0 acc * radix + d)) s'
      | None => acc
      end
  | [] => acc
  end.

Definition parseInt (s : jsstring) : number :=
  let s1 := trimStart s in
  let '(sign, s2) :=
    match s1 with
    | 45%N :: r => (-1, r)
    | 43%N :: r => (1, r)
    | _ => (1, s1)
    end in
  let '(radix, s3) :=
    match s2 with
    | 48%N :: 120%N :: r | 48%N :: 88%N :: r => (16, r)
    | _ => (10, s2)
    end in
  (fun n => sign * n) <$> digits radix None s3.

(** [url.searchParams]: the pairs of the query string in order; [get]
    returns the first value of a name, or null. *)
Definition searchParams := list (jsstring * jsstring).

Fixpoint get (name : jsstring) (q : searchParams) : option jsstring :=
  match q with
  | [] => None
  | (k, v) :: q' => if decide (k = name) then Some v else get name q'
  end.

(** [a || b] on a nullable string. *)
Definition orElse (a : option jsstring) (b : jsstring) : jsstring :=
  if falsy a then b else default [] a.

Definition defaultPageSize : Z := 50.

Record PageInfo := { page : Z; pageSize : Z; skip : Z }.

(** [getPageInfo] (lines 434-448) *)
Definition getPageInfo (q : searchParams) : PageInfo :=
  let page := Math_max (parseInt (orElse (get (lit "page") q) (lit "1"))) (Some 1) in
  let pageSize :=
    Math_max
      (Math_min (parseInt (orElse (get (lit "pageSize") q)
                             (decimal (Z.to_N defaultPageSize)))) (Some 100))
      (Some 0) in
  let skip := times (minus page (Some 1)) pageSize in
  {| page := if isNaN page then 1 else default 0 page;
     pageSize := if isNaN pageSize then defaultPageSize else default 0 pageSize;
     skip := if isNaN skip then 0 else default 0 skip |}.

Record Request := {
  params_id : option jsstring;    (* the [$id] segment of the route *)
  search : searchParams;
  form_logId : option N;          (* absent, or not a string: [None] *)
  form_intent : option jsstring
}.

Record LoaderData := {
  ld_user : SessionUser;
  ld_channel : ModeratedChannel;
  ld_moderationLogs : list ModerationLog;
  ld_page : Z;
  ld_pageSize : Z;
  ld_total : Z
}.

(** [loader] (lines 37-76) *)
Definition loader (w : World) (req : Request) : M LoaderData :=
  id ← invariant (params_id req) (lit "id is required");
  user ← requireUser w;
  channel ← requireUserCanModerateChannel (su_id user) id;
  let pi := getPageInfo (search req) in
  moderationLogs ← moderationLog_findMany (mc_id channel) (pageSize pi) (skip pi);
  totalModerationLogs ← moderationLog_count (mc_id channel);
  mret {| ld_user := user; ld_channel := channel;
          ld_moderationLogs := moderationLogs;
          ld_page := page pi; ld_pageSize := pageSize pi;
          ld_total := totalModerationLogs |}.

(** [typedjson({ message }, { status })] *)
Record Response := { resp_message : jsstring; resp_status : Z }.
Definition typedjson (message : jsstring) (status : Z) : Response :=
  {| resp_message := message; resp_status := status |}.

Inductive Intent := EndCooldown | Unmute | Unhide.

(** The zod schema: [logId] a string, [intent] one of three literals. *)
Definition parseIntent (s : jsstring) : option Intent :=
  if bool_decide (s = lit "end-cooldown") then Some EndCooldown
  else if bool_decide (s = lit "unmute") then Some Unmute
  else if bool_decide (s = lit "unhide") then Some Unhide
  else None.

Definition safeParse (req : Request) : option (N * Intent) :=
  logId ← form_logId req;
  intent ← form_intent req ≫= parseIntent;
  Some (logId, intent).

(** [if (updated)]: the record returned by [update] is an object, and an
    object is truthy. *)
Definition truthy (c : Cooldown) : bool := true.

Definition logData (action : jsstring) (log : ModerationLog) (user : SessionUser)
    (channel : ModeratedChannel) (reason : jsstring) : LogData :=
  {| d_action := action;
     d_affectedUserFid := log_affectedUserFid log;
     d_affectedUsername := log_affectedUsername log;
     d_affectedUserAvatarUrl := log_affectedUserAvatarUrl log;
     d_actor := su_id user;
     d_channelId := mc_id channel;
     d_reason := reason ++ su_name user |}.

(** [action] (lines 78-199).  The final [else] ("Invalid intent") cannot
    be reached once the schema has accepted the intent. *)
Definition action (w : World) (req : Request) : M Response :=
  id ← invariant (params_id req) (lit "id is required");
  user ← requireUser w;
  channel ← requireUserCanModerateChannel (su_id user) id;
  match safeParse req with
  | None => mret (typedjson (lit "Invalid data") 422)
  | Some (logId, intent) =>
      found ← moderationLog_findUnique logId;
      match found with
      | None => mret (typedjson (lit "Log not found") 404)
      | Some log =>
          match intent with
          | EndCooldown =>
              updated ← cooldown_update (log_affectedUserFid log, mc_id channel) false;
              (if truthy updated then
                 _ ← moderationLog_create (now w)
                       (logData (lit "cooldownEnded") log user channel
                          (lit "Cooldown ended by @"));
                 mret tt
               else mret tt)
          | Unmute =>
              updated ← cooldown_update (log_affectedUserFid log, mc_id channel) false;
              (if truthy updated then
                 _ ← moderationLog_create (now w)
                       (logData (lit "unmuted") log user channel (lit "Unmuted by @"));
                 mret tt
               else mret tt)
          | Unhide =>
              castHash ← invariant (log_castHash log) (lit "castHash is required");
              _ ← await (unhide w castHash);
              _ ← moderationLog_create (now w)
                    (logData (lit "unhide") log user channel (lit "Unhidden by @"));
              mret tt
          end;;
          mret (typedjson (lit "success") 200)
      end
  end.

(** The paging link of [Screen] (line 206):
    [page + 1 > Math.ceil(total / pageSize) ? null : page + 1].  With
    [pageSize = 0] the quotient is Infinity or NaN and the comparison is
    false. *)
Definition ceilDiv (total pageSize : Z) : number :=
  if pageSize =? 0 then None else Some (- ((- total) / pageSize)).

Definition nextPage (page pageSize total : Z) : option Z :=
  match ceilDiv total pageSize with
  | Some last => if page + 1 >? last then None else Some (page + 1)
  | None => Some (page + 1)
  end.

End LogsRoute.

(** ** The channel-settings route ([action]) *)

Module SettingsRoute.

Record Request := {
  params_id : option jsstring;
  form_intent : option jsstring;
  (* [Number(rawData.followBannedList)] when it is an integer *)
  form_followBannedList : option Z
}.

Record Response := { resp_message : jsstring; resp_status : Z }.
Definition successResponse (message : jsstring) : Response :=
  {| resp_message := message; resp_status := 200 |}.
Definition errorResponse (message : jsstring) : Response :=
  {| resp_message := message; resp_status := 400 |}.

Inductive Intent := DeleteChannel | UpdateBannedListSetting.

Definition parseIntent (s : jsstring) : option Intent :=
  if bool_decide (s = lit "deleteChannel") then Some DeleteChannel
  else if bool_decide (s = lit "updateBannedListSetting") then Some UpdateBannedListSetting
  else None.

Record LoaderData := { ld_user : SessionUser; ld_moderatedChannel : ModeratedChannel }.

(** [loader] of the settings route *)
Definition loader (w : World) (req : Request) : M LoaderData :=
  id ← invariant (params_id req) (lit "id is required");
  user ← requireUser w;
  moderatedChannel ← requireUserCanModerateChannel (su_id user) id;
  mret {| ld_user := user; ld_moderatedChannel := moderatedChannel |}.

(** [action] of the settings route *)
Definition action (w : World) (req : Request) : M Response :=
  id ← invariant (params_id req) (lit "id is required");
  user ← requireUser w;
  moderatedChannel ← requireUserCanModerateChannel (su_id user) id;
  match form_intent req ≫= parseIntent with
  | None => mret (errorResponse (lit "Invalid enum value")) (* the zod issue text *)
  | Some DeleteChannel =>
      comods_deleteMany (mc_id moderatedChannel);;
      moderationLog_deleteMany (mc_id moderatedChannel);;
      castLog_deleteMany (mc_id moderatedChannel);;
      moderatedChannel_delete (mc_id moderatedChannel);;
      mret (successResponse (lit "Channel removed"))
  | Some UpdateBannedListSetting =>
      moderatedChannel_update (mc_id moderatedChannel) (form_followBannedList req);;
      mret (successResponse (lit "Updated"))
  end.

End SettingsRoute.

(** ** Every handler of the two routes, as one step on the database *)

Inductive Handler : Type :=
| LogsLoader (req : LogsRoute.Request)
| LogsAction (req : LogsRoute.Request)
| SettingsLoader (req : SettingsRoute.Request)
| SettingsAction (req : SettingsRoute.Request).

Definition run (w : World) (h : Handler) (db : Db) : Db :=
  match h with
  | LogsLoader req => (LogsRoute.loader w req db).2
  | LogsAction req => (LogsRoute.action w req db).2
  | SettingsLoader req => (SettingsRoute.loader w req db).2
  | SettingsAction req => (SettingsRoute.action w req db).2
  end.

(** ** The words of the specification, to compare the code with *)

(** "The actor is the channel's lead ([userId]) or one of its comods." *)
Definition isLeadOrComod (db : Db) (userId channelId : jsstring) : Prop :=
  exists r, moderatedChannel db !! channelId = Some r
            /\ (row_userId r = userId
                \/ exists c, c ∈ comods db
                             /\ comod_channelId c = channelId /\ comod_fid c = userId).

(** The request comes from a signed-in user who may moderate the channel
    named by the route. *)
Definition authorised (w : World) (params_id : option jsstring) (db : Db) : Prop :=
  exists id uid,
    params_id = Some id /\ id <> [] /\ sessionUser w = Some uid
    /\ is_Some (user db !! uid) /\ isLeadOrComod db uid id.

(** ** A small installation, for the worked examples *)

Module Sample.

Definition alice : jsstring := lit "3".    (* lead of the channel *)
Definition bob : jsstring := lit "5".      (* a comod *)
Definition carol : jsstring := lit "8".    (* neither *)
Definition memes : jsstring := lit "memes".
Definition books : jsstring := lit "books".

Definition entry (id : N) (action channelId : jsstring) (castHash : option jsstring)
    (createdAt : Z) : ModerationLog :=
  {| log_id := id; log_action := action;
     log_affectedUserFid := lit "13"; log_affectedUsername := lit "dave";
     log_affectedUserAvatarUrl := None; log_actor := lit "modbot";
     log_channelId := channelId; log_reason := lit "rule triggered";
     log_castHash := castHash; log_createdAt := createdAt |}.

Definition db0 : Db :=
  {| user := {[ alice := {| user_name := lit "alice" |};
                bob := {| user_name := lit "bob" |};
                carol := {| user_name := lit "carol" |} ]};
     moderatedChannel :=
       {[ memes := {| row_userId := alice; row_disableBannedList := 0 |};
          books := {| row_userId := carol; row_disableBannedList := 0 |} ]};
     comods := [ {| comod_fid := bob; comod_channelId := memes |} ];
     cooldown := {[ (lit "13", memes) := {| active := true; expiresAt := None |} ]};
     moderationLog :=
       [ entry 0 (lit "cooldown") memes None 100;
         entry 1 (lit "hideQuietly") memes (Some (lit "0xa1b2c3")) 110;
         entry 2 (lit "warnAndHide") memes None 120;
         entry 3 (lit "mute") books None 130 ];
     castLog :=
       [ {| cast_hash := lit "0xa1b2c3"; cast_replyCount := 0; cast_createdAt := 105;
            cast_updatedAt := 105; cast_status := lit "hidden"; cast_channelId := memes |};
         {| cast_hash := lit "0xd4e5f6"; cast_replyCount := 2; cast_createdAt := 125;
            cast_updatedAt := 126; cast_status := lit "active"; cast_channelId := books |} ];
     logSeq := 4 |}.

Definition world (who : jsstring) (unhideOk : bool) : World :=
  {| sessionUser := Some who; now := 1000;
     unhide := fun _ => if unhideOk then Fulfilled tt else Rejected ExternalError |}.

Definition post (logId : N) (intent : string) : LogsRoute.Request :=
  {| LogsRoute.params_id := Some memes; LogsRoute.search := [];
     LogsRoute.form_logId := Some logId; LogsRoute.form_intent := Some (lit intent) |}.

Definition visit (query : list (string * string)) : LogsRoute.Request :=
  {| LogsRoute.params_id := Some memes;
     LogsRoute.search := (fun kv => (lit kv.1, lit kv.2)) <$> query;
     LogsRoute.form_logId := None; LogsRoute.form_intent := None |}.

Definition remove (channelId : jsstring) : SettingsRoute.Request :=
  {| SettingsRoute.params_id := Some channelId;
     SettingsRoute.form_intent := Some (lit "deleteChannel");
     SettingsRoute.form_followBannedList := None |}.

(** The same installation with 120 entries in the channel, entry [i]
    created at time [i]. *)
Definition db120 : Db :=
  set_moderationLog
    ((fun i => entry (N.of_nat i) (lit "cooldown") memes None (Z.of_nat i)) <$> seq 0 120)
    120%N db0.

(** A chain whose reads always fail. *)
Definition deadChain : Chain :=
  {| Client := unit; Address := jsstring;
     clientsByChainId := fun _ => Some tt;
     getAddress := fun a => Some a;
     supportsInterface := fun _ _ _ => Rejected ExternalError;
     allowance := fun _ _ _ _ => Rejected ExternalError |}.

End Sample.

(** ** More of [app/lib/utils.server.ts] *)

Module UtilsHelpers.

(** A channel with [include: { moderationLogs: { take: 25, orderBy:
    { createdAt: "desc" } } }]. *)
Record OwnedChannel := {
  oc_channel : ModeratedChannel;
  oc_moderationLogs : list ModerationLog
}.

(** [requireUserOwnsChannel] (lines 106-127): [findUnique] with
    [where: { id, userId }]. *)
Definition requireUserOwnsChannel (userId channelId : jsstring) : M OwnedChannel :=
  found ← query (fun db =>
    match moderatedChannel db !! channelId with
    | Some r =>
        if bool_decide (row_userId r = userId)
        then Some {| oc_channel := mkChannel channelId r;
                     oc_moderationLogs :=
                       take 25 (merge_sort newerFirst
                                  (List.filter (inChannel channelId) (moderationLog db))) |}
        else None
    | None => None
    end);
  match found with
  | Some c => mret c
  | None => throw (Redirect (lit "/") 403)
  end.

(** The delegate table with the role of each row joined in.  No handler
    modelled here writes it, so it is passed along with the database. *)
Record Delegate := {
  delegate_fid : jsstring;
  delegate_channelId : jsstring;
  delegate_permissions : jsstring;     (* [role.permissions] *)
  delegate_isCohostRole : bool         (* [role.isCohostRole] *)
}.

(** [canUserExecuteAction] (lines 147-169).  [actionToPermission] is
    [~/lib/permissions.server]; [contains] is the string filter of the
    database, whose letter-case rule depends on the engine. *)
Definition canUserExecuteAction
    (actionToPermission : jsstring -> jsstring)
    (contains : jsstring -> jsstring -> bool)
    (delegates : list Delegate)
    (userId channelId action : jsstring) : M bool :=
  moderation ← canUserModerateChannel userId channelId;
  if UtilsServer.result moderation then mret true
  else
    let actionPermission := actionToPermission action in
    let isDelegate :=
      List.find (fun d =>
        bool_decide (delegate_channelId d = channelId)
        && bool_decide (delegate_fid d = userId)
        && contains (delegate_permissions d) actionPermission) delegates in
    mret (bool_decide (isDelegate <> None)).

(** [getModerators] (lines 640-651) *)
Definition getModerators (delegates : list Delegate) (channel : jsstring) : list Delegate :=
  List.filter delegate_isCohostRole
    (List.filter (fun d => bool_decide (delegate_channelId d = channel)) delegates).

(** [formatHash] (lines 523-525): [hash.slice(0, 3)], three dots,
    [hash.slice(-3)]. *)
Definition formatHash (hash : jsstring) : jsstring :=
  take 3 hash ++ lit "..." ++ drop (length hash - 3) hash.

(** Regular expressions, matched the way [String.prototype.match] does
    without flags: the pattern is tried at every position from the left. *)
Fixpoint search (matchAt : jsstring -> bool) (s : jsstring) : bool :=
  matchAt s ||
  match s with
  | [] => false
  | _ :: s' => search matchAt s'
  end.

Definition isHex (c : N) : bool :=
  (((48 <=? c) && (c <=? 57)) || ((97 <=? c) && (c <=? 102))
   || ((65 <=? c) && (c <=? 70)))%N.

Definition isAlnum (c : N) : bool :=
  (((48 <=? c) && (c <=? 57)) || ((97 <=? c) && (c <=? 122))
   || ((65 <=? c) && (c <=? 90)))%N.

(** [.] matches everything but the line terminators. *)
Definition isDot (c : N) : bool :=
  negb (bool_decide (c ∈ [10; 13; 8232; 8233]%N)).

(** [[a-fA-F0-9]{n}] at the head of [s] *)
Fixpoint hexRun (n : nat) (s : jsstring) : bool :=
  match n with
  | O => true
  | S n' =>
      match s with
      | c :: s' => isHex c && hexRun n' s'
      | [] => false
      end
  end.

Fixpoint stripPrefix (p s : jsstring) : option jsstring :=
  match p with
  | [] => Some s
  | a :: p' =>
      match s with
      | b :: s' => if bool_decide (a = b) then stripPrefix p' s' else None
      | [] => None
      end
  end.

Fixpoint dropWhile (f : N -> bool) (s : jsstring) : jsstring :=
  match s with
  | c :: s' => if f c then dropWhile f s' else s
  | [] => []
  end.

(** [isCastHash] (lines 527-529): [/0x[a-fA-F0-9]{40}/] *)
Definition castHashAt (s : jsstring) : bool :=
  match stripPrefix (lit "0x") s with
  | Some r => hexRun 40 r
  | None => false
  end.
Definition isCastHash (value : jsstring) : bool := search castHashAt value.

(** [isWarpcastCastUrl] (lines 531-533):
    [/https:\/\/warpcast.com\/[a-zA-Z0-9]+\/0x[a-fA-F0-9]{8}/].  The dot
    before [com] is not escaped.  The run [[a-zA-Z0-9]+] is followed by a
    slash, which the class excludes, so only the longest run can match. *)
Definition castUrlAt (s : jsstring) : bool :=
  match stripPrefix (lit "https://warpcast") s with
  | Some (c :: r1) =>
      isDot c &&
      match stripPrefix (lit "com/") r1 with
      | Some r2 =>
          match r2 with
          | u :: _ =>
              isAlnum u &&
              match stripPrefix (lit "/0x") (dropWhile isAlnum r2) with
              | Some r3 => hexRun 8 r3
              | None => false
              end
          | [] => false
          end
      | None => false
      end
  | _ => false
  end.
Definition isWarpcastCastUrl (value : jsstring) : bool := search castUrlAt value.

(** Truthiness of a value. *)
Definition truthyValue (v : value) : bool :=
  match v with
  | VUndefined | VNull => false
  | VBool b => b
  | VNum n => negb (n =? 0)
  | VStr s => negb (bool_decide (s = []))
  | VArr _ | VObj _ => true
  end.

(** The cache of [~/lib/cache.server]: each key holds a value and the
    time to live it was stored with; [get] of a key that is not held is
    [undefined].  Expiry is the cache's own business and not modelled. *)
Abbreviation Cache := (gmap jsstring (value * Z)).

(** [getSetCache] (lines 535-546).  [get] is any computation on some
    outside state [W]. *)
Definition getSetCache {W : Type} (key : jsstring) (ttlSeconds : option Z)
    (get : W -> settled value * W) (cache : Cache) (w : W)
  : settled value * Cache * W :=
  let cachedValue := default VUndefined (fst <$> cache !! key) in
  if truthyValue cachedValue then (Fulfilled cachedValue, cache, w)
  else
    match get w with
    | (Fulfilled freshValue, w') =>
        (Fulfilled freshValue, <[key := (freshValue, default 0 ttlSeconds)]> cache, w')
    | (Rejected e, w') => (Rejected e, cache, w')
    end.

End UtilsHelpers.

(** ** The log page: the menu of an entry and the paging links ([Screen]) *)

Module LogsScreen.

(** The value of the button the menu of an entry posts as [intent]
    (lines 304-353); no menu for the other actions. *)
Definition menuIntent (action : jsstring) : option jsstring :=
  if bool_decide (action ∈ [lit "cooldown"; lit "mute"; lit "hideQuietly"; lit "warnAndHide"])
  then
    if bool_decide (action = lit "cooldown") then Some (lit "end-cooldown")
    else if bool_decide (action = lit "mute") then Some (lit "unmute")
    else if bool_decide (action = lit "hideQuietly") || bool_decide (action = lit "warnAndHide")
    then Some (lit "unhide")
    else None
  else None.



End LogsScreen.

(** ** [app/routes/install.tsx] *)

Module InstallRoute.

(** An entry of [actions] ([~/lib/cast-actions.server]). *)
Record CastAction := {
  ca_actionType : jsstring;
  ca_name : jsstring;
  ca_icon : jsstring;
  ca_postUrl : jsstring;
  ca_image : jsstring
}.

Record Button := { b_text : jsstring; b_link : option jsstring }.

(** What the handlers pass to [frameResponse]. *)
Record Frame := {
  f_title : jsstring;
  f_description : jsstring;
  f_image : jsstring;
  f_cacheTtlSeconds : Z;
  f_postUrl : jsstring;
  f_buttons : list Button
}.

Section handlers.

(** The installed actions, the host of the environment, and
    [actionToInstallLink], whose URL serialisation is left to the
    platform. *)
Variable actions : list CastAction.
Variable hostUrl : jsstring.
Variable actionToInstallLink : CastAction -> jsstring.

(** [actions[i]]: [undefined] for NaN, a negative index, or one past the
    end. *)
Definition at_ (i : LogsRoute.number) : option CastAction :=
  match i with
  | Some n => if 0 <=? n then actions !! Z.to_nat n else None
  | None => None
  end.

Definition plus (a b : LogsRoute.number) : LogsRoute.number :=
  match a, b with Some x, Some y => Some (x + y) | _, _ => None end.

(** [a % b] on integers-or-NaN. *)
Definition remainder (a b : LogsRoute.number) : LogsRoute.number :=
  match a, b with
  | Some x, Some y => if y =? 0 then None else Some (Z.rem x y)
  | _, _ => None
  end.

(** The template [`${n}`] of a number. *)
Definition show (n : LogsRoute.number) : jsstring :=
  match n with
  | Some z => if 0 <=? z then decimal (Z.to_N z) else lit "-" ++ decimal (Z.to_N (- z))
  | None => lit "NaN"
  end.

(** [action] (lines 11-36); [index] is [url.searchParams.get("index")]. *)
Definition action (index : option jsstring) : settled Frame :=
  let currentIndex := LogsRoute.parseInt (default (lit "1") index) in
  let currentAction := at_ currentIndex in
  let nextIndex :=
    remainder (plus currentIndex (Some 1)) (Some (Z.of_nat (length actions))) in
  match currentAction with
  | None => Rejected TypeError
  | Some a =>
      Fulfilled {|
        f_title := lit "Automod Cast Actions";
        f_description := lit "Install automod cast actions";
        f_image := ca_image a;
        f_cacheTtlSeconds := 0;
        f_postUrl := hostUrl ++ lit "/install?index=" ++ show nextIndex;
        f_buttons := [ {| b_text := lit "Install"; b_link := Some (actionToInstallLink a) |};
                       {| b_text := lit "Next"; b_link := None |} ] |}
  end.

(** [loader] (lines 38-58) *)
Definition loader : settled Frame :=
  match at_ (Some 0) with
  | None => Rejected TypeError
  | Some a =>
      Fulfilled {|
        f_title := lit "Automod Cast Actions";
        f_description := lit "Install automod cast actions";
        f_image := ca_image a;
        f_cacheTtlSeconds := 0;
        f_postUrl := hostUrl ++ lit "/install?index=1";
        f_buttons :=
          {| b_text := lit "Install"; b_link := Some (actionToInstallLink a) |}
          :: (if 1 <? Z.of_nat (length actions)
              then [ {| b_text := lit "Next"; b_link := None |} ] else []) |}
  end.

End handlers.

End InstallRoute.

(** The cache has nothing to serve for the key: no value, or a falsy one. *)
Definition missing (cache : UtilsHelpers.Cache) (key : jsstring) : Prop :=
  UtilsHelpers.truthyValue (default VUndefined (fst <$> cache !! key)) = false.

(** A decimal digit. *)
Definition isDigit (c : N) : Prop := (48 <= c <= 57)%N.

(* ===================================================================== *)
(** * Part II: properties                                                 *)
(* ===================================================================== *)

(** ** The webhook rule *)

Section webhook_properties.

Import WebhookRule.

Implicit Types (args : CheckFunctionArgs) (x : exchange) (r : response).

(** The four texts of the failure branch, with the template literals
    expanded. *)
Lemma onError_unfold fm e :
  onError fm e =
  Fulfilled {|
    result := strictEqStr fm (lit "trigger");
    message :=
      match bool_decide (errCode e = Some (lit "ECONNABORTED")),
            strictEqStr fm (lit "trigger") with
      | true, true =>
          lit "Webhook didn't respond within 5s, rule is set to trigger on failure"
      | true, false =>
          lit "Webhook did not respond within 5s, rule is set to not trigger on failure. "
      | false, true => lit "Webhook failed but rule is set to trigger on failure"
      | false, false => lit "Webhook failed and rule is set to not trigger on failure"
      end |}.
Proof.
  unfold onError.
  destruct (bool_decide _), (strictEqStr fm _); reflexivity.
Qed.

Lemma onError_message_bounds fm e c :
  onError fm e = Fulfilled c ->
  message c <> [] /\ (length (message c) <= 75)%nat.
Proof.
  rewrite onError_unfold. intros [= <-]. cbn [message].
  destruct (bool_decide _), (strictEqStr fm _);
    (split; [discriminate | vm_compute; lia]).
Qed.

(** A rejected request goes straight to the failure branch. *)
Lemma webhook_rejected args x e :
  axios_post x = Rejected e -> webhook args x = onError (failureMode args) e.
Proof. unfold webhook. intros ->. reflexivity. Qed.

(** An accepted response goes through the response callback, and to the
    failure branch only if that callback throws. *)
Lemma webhook_accepted args r :
  validateStatus (status r) = true ->
  webhook args (Replied r) = orCatch (onResponse r) (onError (failureMode args)).
Proof. unfold webhook, axios_post. intros ->. reflexivity. Qed.

(** The response callback on a body whose [message] is a string, null
    or missing. *)
Lemma onResponse_string r s :
  getProp (data r) (lit "message") = Fulfilled (VStr s) ->
  onResponse r =
  Fulfilled {|
    result := (status r =? 200);
    message :=
      match take 75 s with
      | [] => if status r =? 200 then lit "Webhook rule triggered"
              else lit "Webhook rule did not trigger"
      | t => t
      end |}.
Proof.
  unfold onResponse. intros ->. cbn [andThen optSubstring0].
  unfold substring0. destruct (take 75 s); reflexivity.
Qed.

Lemma onResponse_nullish r m :
  getProp (data r) (lit "message") = Fulfilled m ->
  m = VUndefined \/ m = VNull ->
  onResponse r =
  Fulfilled {|
    result := (status r =? 200);
    message := if status r =? 200 then lit "Webhook rule triggered"
               else lit "Webhook rule did not trigger" |}.
Proof.
  unfold onResponse. intros -> [-> | ->]; reflexivity.
Qed.

Lemma onResponse_message_bounds r c :
  onResponse r = Fulfilled c ->
  message c <> [] /\ (length (message c) <= 75)%nat.
Proof.
  unfold onResponse.
  destruct (getProp (data r) (lit "message")) as [m | ]; [ | discriminate].
  cbn [andThen].
  destruct (optSubstring0 75 m) as [m0 | ] eqn:Hm; [ | discriminate].
  cbn [andThen]. intros [= <-]. cbn [message].
  destruct m0 as [[ | u t] | ]; cbn [falsy default from_option id].
  - destruct (status r =? 200); (split; [discriminate | vm_compute; lia]).
  - split; [discriminate | ].
    destruct m; try discriminate. cbn [optSubstring0] in Hm.
    assert (Ht : substring0 75 s = u :: t) by congruence.
    rewrite <- Ht. unfold substring0. rewrite length_take. lia.
  - destruct (status r =? 200); (split; [discriminate | vm_compute; lia]).
Qed.

Lemma strictEqStr_true v s : strictEqStr v s = true <-> v = VStr s.
Proof.
  destruct v; cbn; try (split; [discriminate | congruence]).
  rewrite bool_decide_eq_true. split; congruence.
Qed.

(** C1 (defect).  The specification promises [result = true] for every accepted
    response with status 200, and the default text when the body's
    [message] is not a non-empty string.  A 200 response whose [message]
    is the number 42 makes [message?.substring] throw inside the response
    callback; the [.catch] takes over and, with [failureMode =
    "doNotTrigger"], the rule does not trigger and reports a failed
    webhook. *)
Theorem webhook_200_non_string_message :
  webhook {| channel_id := lit "farcaster"; url := lit "https://example.com/webhook";
             failureMode := VStr (lit "doNotTrigger") |}
          (Replied {| status := 200; data := VObj [(lit "message", VNum 42)] |})
  = Fulfilled {| result := false;
                 message := lit "Webhook failed and rule is set to not trigger on failure" |}.
Proof. vm_compute. reflexivity. Qed.

(** C3.  When the request fails (no reply in time, a transport error, or
    a reply whose status axios rejects) the check does not throw: it is
    fulfilled with [result = true] under [failureMode = "trigger"] and
    [result = false] under ["doNotTrigger"]; the text is the timeout text
    of that mode when the error code is ECONNABORTED and the generic
    failure text of that mode otherwise, and the four texts are pairwise
    different. *)
Theorem webhook_failure_follows_failureMode args x e :
  axios_post x = Rejected e ->
  exists c,
    webhook args x = Fulfilled c
    /\ (failureMode args = VStr (lit "trigger") -> result c = true)
    /\ (failureMode args = VStr (lit "doNotTrigger") -> result c = false)
    /\ (errCode e = Some (lit "ECONNABORTED") ->
          (failureMode args = VStr (lit "trigger") ->
             message c =
             lit "Webhook didn't respond within 5s, rule is set to trigger on failure")
          /\ (failureMode args = VStr (lit "doNotTrigger") ->
             message c =
             lit "Webhook did not respond within 5s, rule is set to not trigger on failure. "))
    /\ (errCode e <> Some (lit "ECONNABORTED") ->
          (failureMode args = VStr (lit "trigger") ->
             message c = lit "Webhook failed but rule is set to trigger on failure")
          /\ (failureMode args = VStr (lit "doNotTrigger") ->
             message c = lit "Webhook failed and rule is set to not trigger on failure"))
    /\ NoDup
         [lit "Webhook didn't respond within 5s, rule is set to trigger on failure";
          lit "Webhook did not respond within 5s, rule is set to not trigger on failure. ";
          lit "Webhook failed but rule is set to trigger on failure";
          lit "Webhook failed and rule is set to not trigger on failure"].
Proof.
  intros Hrej. rewrite (webhook_rejected _ _ _ Hrej), onError_unfold.
  eexists. split; [reflexivity | ]. cbn [result message].
  repeat split.
  - intros ->. reflexivity.
  - intros ->. reflexivity.
  - intros ->. rewrite bool_decide_eq_true_2; [reflexivity | assumption].
  - intros ->. rewrite bool_decide_eq_true_2; [reflexivity | assumption].
  - intros ->. rewrite bool_decide_eq_false_2; [reflexivity | assumption].
  - intros ->. rewrite bool_decide_eq_false_2; [reflexivity | assumption].
  - refine (bool_decide_unpack (NoDup _) _). vm_compute. exact I.
Qed.

Lemma webhook_failure_follows_failureMode_witness :
  axios_post (NoReply (Some (lit "ECONNABORTED")))
    = Rejected (AxiosError (Some (lit "ECONNABORTED")) None)
  /\ exists c,
       webhook {| channel_id := lit "farcaster"; url := lit "https://example.com/webhook";
                  failureMode := VStr (lit "trigger") |}
               (NoReply (Some (lit "ECONNABORTED"))) = Fulfilled c
       /\ result c = true
       /\ message c =
          lit "Webhook didn't respond within 5s, rule is set to trigger on failure".
Proof.
  split; [reflexivity | ].
  destruct (webhook_failure_follows_failureMode
              {| channel_id := lit "farcaster"; url := lit "https://example.com/webhook";
                 failureMode := VStr (lit "trigger") |}
              (NoReply (Some (lit "ECONNABORTED")))
              (AxiosError (Some (lit "ECONNABORTED")) None) eq_refl)
    as (c & Hc & Htrig & _ & Htimeout & _).
  exists c. split; [exact Hc | ]. split; [exact (Htrig eq_refl) | ].
  exact (proj1 (Htimeout eq_refl) eq_refl).
Defined.

(** C7.  Whatever the exchange and the rule arguments, the check is
    fulfilled (never rejected) with a result whose message is non-empty
    and at most 75 code units long; and a non-empty string [message] of
    an accepted response, however long, is cut to its first 75 code units
    and returned with the status-derived result. *)
Theorem webhook_message_present_and_bounded :
  (forall args x,
      exists c, webhook args x = Fulfilled c
                /\ message c <> [] /\ (length (message c) <= 75)%nat)
  /\ (forall args r s,
        validateStatus (status r) = true ->
        getProp (data r) (lit "message") = Fulfilled (VStr s) ->
        s <> [] ->
        webhook args (Replied r)
        = Fulfilled {| result := (status r =? 200); message := take 75 s |}).
Proof.
  split.
  - intros args x. unfold webhook.
    destruct (axios_post x) as [r | e]; cbn [andThen].
    + destruct (onResponse r) as [c | e] eqn:Hr; cbn [orCatch].
      * exists c. split; [reflexivity | ]. eapply onResponse_message_bounds, Hr.
      * rewrite onError_unfold. eexists. split; [reflexivity | ].
        eapply onError_message_bounds. apply onError_unfold.
    + cbn [orCatch]. rewrite onError_unfold. eexists. split; [reflexivity | ].
      eapply onError_message_bounds. apply onError_unfold.
  - intros args r s Hok Hm Hs.
    rewrite (webhook_accepted _ _ Hok), (onResponse_string _ _ Hm). cbn [orCatch].
    destruct s as [ | u t]; [congruence | ]. reflexivity.
Qed.

Lemma webhook_message_present_and_bounded_witness :
  validateStatus 200 = true
  /\ getProp (VObj [(lit "message", VStr (replicate 80 97%N))]) (lit "message")
     = Fulfilled (VStr (replicate 80 97%N))
  /\ replicate 80 97%N <> []
  /\ webhook {| channel_id := lit "farcaster"; url := lit "https://example.com/webhook";
                failureMode := VUndefined |}
             (Replied {| status := 200;
                         data := VObj [(lit "message", VStr (replicate 80 97%N))] |})
     = Fulfilled {| result := true; message := replicate 75 97%N |}.
Proof.
  split; [reflexivity | ]. split; [reflexivity | ]. split; [discriminate | ].
  exact (proj2 webhook_message_present_and_bounded
           {| channel_id := lit "farcaster"; url := lit "https://example.com/webhook";
              failureMode := VUndefined |}
           {| status := 200; data := VObj [(lit "message", VStr (replicate 80 97%N))] |}
           (replicate 80 97%N) eq_refl eq_refl ltac:(discriminate)).
Defined.

(** C10 (as stated, false).  A 201 response that carries its own
    [message] yields that message, not the default text. *)
Lemma webhook_201_keeps_body_message :
  webhook {| channel_id := lit "farcaster"; url := lit "https://example.com/webhook";
             failureMode := VStr (lit "doNotTrigger") |}
          (Replied {| status := 201; data := VObj [(lit "message", VStr (lit "created"))] |})
  = Fulfilled {| result := false; message := lit "created" |}
  /\ lit "created" <> lit "Webhook rule did not trigger".
Proof. split; [vm_compute; reflexivity | discriminate]. Qed.

(** C10 (amended).  For an accepted response whose body lets the
    response callback complete ([message] a string, null or missing on a
    body that is not null), [result = true] exactly when the status is
    200; every other accepted status (201-299 and 400) gives [result =
    false] with the body's non-empty [message] cut to 75 code units, or
    the default "Webhook rule did not trigger" when there is none.  For a
    failed request, [result = true] exactly when [failureMode] is the
    string "trigger"; every other value, [undefined] included, gives
    [result = false]. *)
Theorem webhook_result_characterised args :
  (forall r m,
      validateStatus (status r) = true ->
      getProp (data r) (lit "message") = Fulfilled m ->
      m = VUndefined \/ m = VNull \/ (exists s, m = VStr s) ->
      exists c,
        webhook args (Replied r) = Fulfilled c
        /\ (result c = true <-> status r = 200)
        /\ (status r <> 200 ->
             message c =
             match m with
             | VStr s =>
                 match take 75 s with
                 | [] => lit "Webhook rule did not trigger"
                 | t => t
                 end
             | _ => lit "Webhook rule did not trigger"
             end))
  /\ (forall x e,
        axios_post x = Rejected e ->
        exists c,
          webhook args x = Fulfilled c
          /\ (result c = true <-> failureMode args = VStr (lit "trigger"))).
Proof.
  split.
  - intros r m Hok Hm Hshape. rewrite (webhook_accepted _ _ Hok).
    destruct Hshape as [-> | [-> | [s ->]]].
    + rewrite (onResponse_nullish _ _ Hm) by auto. cbn [orCatch].
      eexists. split; [reflexivity | ]. cbn [result message]. split.
      * apply Z.eqb_eq.
      * intros Hne. apply Z.eqb_neq in Hne. rewrite Hne. reflexivity.
    + rewrite (onResponse_nullish _ _ Hm) by auto. cbn [orCatch].
      eexists. split; [reflexivity | ]. cbn [result message]. split.
      * apply Z.eqb_eq.
      * intros Hne. apply Z.eqb_neq in Hne. rewrite Hne. reflexivity.
    + rewrite (onResponse_string _ _ Hm). cbn [orCatch].
      eexists. split; [reflexivity | ]. cbn [result message]. split.
      * apply Z.eqb_eq.
      * intros Hne. apply Z.eqb_neq in Hne. rewrite Hne. reflexivity.
  - intros x e Hrej. rewrite (webhook_rejected _ _ _ Hrej), onError_unfold.
    eexists. split; [reflexivity | ]. cbn [result]. apply strictEqStr_true.
Qed.

Lemma webhook_result_characterised_witness :
  (validateStatus 204 = true
   /\ getProp (VStr []) (lit "message") = Fulfilled VUndefined
   /\ exists c,
        webhook {| channel_id := lit "farcaster"; url := lit "https://example.com/webhook";
                   failureMode := VStr (lit "trigger") |}
                (Replied {| status := 204; data := VStr [] |}) = Fulfilled c
        /\ (result c = true <-> 204 = 200)
        /\ (204 <> 200 -> message c = lit "Webhook rule did not trigger"))
  /\ (axios_post (Replied {| status := 500; data := VNull |})
      = Rejected (AxiosError (Some (lit "ERR_BAD_RESPONSE")) (Some 500))
      /\ exists c,
           webhook {| channel_id := lit "farcaster"; url := lit "https://example.com/webhook";
                      failureMode := VStr (lit "trigger") |}
                   (Replied {| status := 500; data := VNull |}) = Fulfilled c
           /\ (result c = true <-> VStr (lit "trigger") = VStr (lit "trigger"))).
Proof.
  split.
  - split; [reflexivity | ]. split; [reflexivity | ].
    exact (proj1 (webhook_result_characterised
                    {| channel_id := lit "farcaster";
                       url := lit "https://example.com/webhook";
                       failureMode := VStr (lit "trigger") |})
             {| status := 204; data := VStr [] |} VUndefined
             eq_refl eq_refl (or_introl eq_refl)).
  - split; [reflexivity | ].
    exact (proj2 (webhook_result_characterised
                    {| channel_id := lit "farcaster";
                       url := lit "https://example.com/webhook";
                       failureMode := VStr (lit "trigger") |})
             (Replied {| status := 500; data := VNull |})
             (AxiosError (Some (lit "ERR_BAD_RESPONSE")) (Some 500)) eq_refl).
Defined.

End webhook_properties.

(** ** Authorisation *)

Section authorisation.

Implicit Types (w : World) (db : Db) (userId channelId : jsstring).

Lemma existsb_isComod db userId channelId :
  existsb (isComod userId channelId) (comods db) = true <->
  exists c, c ∈ comods db /\ comod_channelId c = channelId /\ comod_fid c = userId.
Proof.
  rewrite existsb_exists. split.
  - intros (c & Hin & Hc). exists c. apply list_elem_of_In in Hin.
    unfold isComod in Hc. apply andb_true_iff in Hc as [H1 H2].
    apply bool_decide_eq_true in H1, H2. auto.
  - intros (c & Hin & H1 & H2). exists c. apply list_elem_of_In in Hin.
    split; [assumption | ]. unfold isComod.
    apply andb_true_iff. split; apply bool_decide_eq_true; assumption.
Qed.

(** The [where] clause of [canUserModerateChannel] says what the
    specification says. *)
Lemma moderator_test db userId channelId r :
  moderatedChannel db !! channelId = Some r ->
  existsb (isComod userId channelId) (comods db) || bool_decide (row_userId r = userId) = true
  <-> isLeadOrComod db userId channelId.
Proof.
  intros Hr. rewrite orb_true_iff, existsb_isComod, bool_decide_eq_true.
  unfold isLeadOrComod. split.
  - intros H. exists r. tauto.
  - intros (r' & Hr' & H). rewrite Hr in Hr'. injection Hr' as <-. tauto.
Qed.

Lemma canUserModerateChannel_yes db userId channelId r :
  moderatedChannel db !! channelId = Some r ->
  isLeadOrComod db userId channelId ->
  canUserModerateChannel userId channelId db
  = (Fulfilled {| result := true; channel := Some (mkChannel channelId r) |}, db).
Proof.
  intros Hr Hm. apply (moderator_test _ _ _ _ Hr) in Hm.
  unfold canUserModerateChannel, mbind, M_bind, query, mret, M_ret.
  rewrite Hr, Hm. reflexivity.
Qed.

Lemma canUserModerateChannel_no db userId channelId :
  ~ isLeadOrComod db userId channelId ->
  canUserModerateChannel userId channelId db
  = (Fulfilled {| result := false; channel := None |}, db).
Proof.
  intros Hm.
  unfold canUserModerateChannel, mbind, M_bind, query, mret, M_ret.
  destruct (moderatedChannel db !! channelId) as [r | ] eqn:Hr; [ | reflexivity].
  destruct (existsb _ _ || bool_decide _) eqn:Ht; [ | reflexivity].
  exfalso. apply Hm. apply (moderator_test _ _ _ _ Hr). exact Ht.
Qed.

Lemma isLeadOrComod_dec db userId channelId :
  isLeadOrComod db userId channelId \/ ~ isLeadOrComod db userId channelId.
Proof.
  destruct (moderatedChannel db !! channelId) as [r | ] eqn:Hr.
  - rewrite <- (moderator_test _ _ _ _ Hr).
    destruct (existsb _ _ || bool_decide _); [left; reflexivity | right; discriminate].
  - right. intros (r & Hr' & _). congruence.
Qed.

(** The three opening lines of every handler: route parameter, session,
    permission.  They either hand the signed-in moderator and the
    channel to the rest of the handler, or throw with the database as it
    was. *)
Lemma gate_open {A} w db pid msg (k : SessionUser -> ModeratedChannel -> M A) id uid u r :
  pid = Some id -> id <> [] ->
  sessionUser w = Some uid -> user db !! uid = Some u ->
  moderatedChannel db !! id = Some r ->
  isLeadOrComod db uid id ->
  (id ← invariant pid msg;
   user ← requireUser w;
   channel ← requireUserCanModerateChannel (su_id user) id;
   k user channel) db
  = k {| su_id := uid; su_name := user_name u |} (mkChannel id r) db.
Proof.
  intros -> Hid Hs Hu Hr Hm.
  destruct id as [ | c id']; [congruence | ].
  unfold mbind, M_bind at 1. cbn [invariant mret M_ret].
  unfold M_bind at 1. unfold requireUser. rewrite Hs.
  unfold mbind, M_bind at 1. unfold user_findFirstOrThrow. rewrite Hu.
  cbn [mret M_ret su_id].
  unfold M_bind at 1. unfold requireUserCanModerateChannel.
  unfold mbind, M_bind at 1.
  rewrite (canUserModerateChannel_yes _ _ _ _ Hr Hm). reflexivity.
Qed.

Lemma gate_forbidden {A} w db pid msg (k : SessionUser -> ModeratedChannel -> M A) id uid :
  pid = Some id -> id <> [] ->
  sessionUser w = Some uid -> is_Some (user db !! uid) ->
  ~ isLeadOrComod db uid id ->
  (id ← invariant pid msg;
   user ← requireUser w;
   channel ← requireUserCanModerateChannel (su_id user) id;
   k user channel) db
  = (Rejected (Redirect (lit "/") 403), db).
Proof.
  intros -> Hid Hs [u Hu] Hm.
  destruct id as [ | c id']; [congruence | ].
  unfold mbind, M_bind at 1. cbn [invariant mret M_ret].
  unfold M_bind at 1. unfold requireUser. rewrite Hs.
  unfold mbind, M_bind at 1. unfold user_findFirstOrThrow. rewrite Hu.
  cbn [mret M_ret su_id].
  unfold M_bind at 1. unfold requireUserCanModerateChannel.
  unfold mbind, M_bind at 1.
  rewrite (canUserModerateChannel_no _ _ _ Hm). reflexivity.
Qed.

Lemma gate_closed {A} w db pid msg (k : SessionUser -> ModeratedChannel -> M A) :
  ~ authorised w pid db ->
  exists e,
    (id ← invariant pid msg;
     user ← requireUser w;
     channel ← requireUserCanModerateChannel (su_id user) id;
     k user channel) db
    = (Rejected e, db).
Proof.
  intros Hno.
  destruct pid as [[ | c id'] | ]; try (eexists; reflexivity).
  destruct (sessionUser w) as [uid | ] eqn:Hs.
  2:{ unfold mbind, M_bind at 1. cbn [invariant mret M_ret].
      unfold M_bind at 1. unfold requireUser. rewrite Hs. eexists; reflexivity. }
  destruct (user db !! uid) as [u | ] eqn:Hu.
  2:{ unfold mbind, M_bind at 1. cbn [invariant mret M_ret].
      unfold M_bind at 1. unfold requireUser. rewrite Hs.
      unfold mbind, M_bind at 1. unfold user_findFirstOrThrow. rewrite Hu.
      eexists; reflexivity. }
  eexists. apply (gate_forbidden w db _ msg k (c :: id') uid); auto.
  intros Hm. apply Hno. exists (c :: id'), uid. rewrite Hu. eauto 10.
Qed.

Lemma authorised_dec w pid db : authorised w pid db \/ ~ authorised w pid db.
Proof.
  unfold authorised.
  destruct pid as [[ | c id'] | ];
    try (right; intros (id & uid & H & Hne & _); congruence).
  destruct (sessionUser w) as [uid | ] eqn:Hs;
    [ | right; intros (id & uid & _ & _ & H & _); congruence].
  destruct (user db !! uid) as [u | ] eqn:Hu.
  - destruct (isLeadOrComod_dec db uid (c :: id')) as [Hm | Hm].
    + left. exists (c :: id'), uid. rewrite Hu. eauto 10.
    + right. intros (id & uid' & [= <-] & _ & [= <-] & _ & H). contradiction.
  - right. intros (id & uid' & _ & _ & [= <-] & [u Hu'] & _). congruence.
Qed.

(** C6.  [canUserModerateChannel] reads the database without changing
    it and answers [{ result: true, channel }] exactly when the user is
    the lead or a comod of the channel, and [{ result: false }] without a
    channel otherwise.  The manual action (end-cooldown, unmute, unhide)
    answers a signed-in user who is neither with the 403 redirect and
    leaves the database as it was; whenever the action changes the
    database, the request was authorised. *)
Theorem manual_action_requires_moderator w req db :
  (forall userId channelId,
      exists m,
        canUserModerateChannel userId channelId db = (Fulfilled m, db)
        /\ (UtilsServer.result m = true <-> isLeadOrComod db userId channelId)
        /\ (UtilsServer.result m = true ->
            exists r, moderatedChannel db !! channelId = Some r
                      /\ channel m = Some (mkChannel channelId r))
        /\ (UtilsServer.result m = false -> channel m = None))
  /\ (forall id uid,
        LogsRoute.params_id req = Some id -> id <> [] ->
        sessionUser w = Some uid -> is_Some (user db !! uid) ->
        ~ isLeadOrComod db uid id ->
        LogsRoute.action w req db = (Rejected (Redirect (lit "/") 403), db))
  /\ ((LogsRoute.action w req db).2 <> db ->
      authorised w (LogsRoute.params_id req) db).
Proof.
  split; [ | split].
  - intros userId channelId.
    destruct (isLeadOrComod_dec db userId channelId) as [Hm | Hm].
    + pose proof Hm as (r & Hr & _).
      rewrite (canUserModerateChannel_yes _ _ _ _ Hr Hm).
      eexists. split; [reflexivity | ]. cbn. split; [tauto | ].
      split; [eauto | discriminate].
    + rewrite (canUserModerateChannel_no _ _ _ Hm).
      eexists. split; [reflexivity | ]. cbn. split; [ | split].
      * split; [discriminate | contradiction].
      * discriminate.
      * reflexivity.
  - intros id uid Hp Hid Hs Hu Hm. unfold LogsRoute.action.
    eapply gate_forbidden; eassumption.
  - intros Hchanged.
    destruct (authorised_dec w (LogsRoute.params_id req) db) as [Hyes | Hno];
      [assumption | ].
    exfalso. apply Hchanged. unfold LogsRoute.action.
    edestruct (@gate_closed LogsRoute.Response) as [e He]; [exact Hno | ].
    rewrite He. reflexivity.
Qed.

Lemma manual_action_requires_moderator_witness :
  (LogsRoute.params_id (Sample.post 0 "end-cooldown") = Some Sample.memes
   /\ Sample.memes <> []
   /\ sessionUser (Sample.world Sample.carol true) = Some Sample.carol
   /\ is_Some (user Sample.db0 !! Sample.carol)
   /\ ~ isLeadOrComod Sample.db0 Sample.carol Sample.memes
   /\ LogsRoute.action (Sample.world Sample.carol true) (Sample.post 0 "end-cooldown")
        Sample.db0
      = (Rejected (Redirect (lit "/") 403), Sample.db0))
  /\ ((LogsRoute.action (Sample.world Sample.bob true) (Sample.post 0 "end-cooldown")
         Sample.db0).2 <> Sample.db0
      /\ authorised (Sample.world Sample.bob true)
           (LogsRoute.params_id (Sample.post 0 "end-cooldown")) Sample.db0).
Proof.
  assert (Hu : is_Some (user Sample.db0 !! Sample.carol))
    by (eexists; vm_compute; reflexivity).
  assert (Hm : ~ isLeadOrComod Sample.db0 Sample.carol Sample.memes).
  { rewrite <- (moderator_test Sample.db0 Sample.carol Sample.memes
                  {| row_userId := Sample.alice; row_disableBannedList := 0 |})
      by (vm_compute; reflexivity).
    vm_compute. discriminate. }
  assert (Hc : (LogsRoute.action (Sample.world Sample.bob true)
                  (Sample.post 0 "end-cooldown") Sample.db0).2 <> Sample.db0).
  { intros H. apply (f_equal (fun d => length (moderationLog d))) in H.
    vm_compute in H. discriminate. }
  split.
  - split; [reflexivity | ]. split; [discriminate | ]. split; [reflexivity | ].
    split; [exact Hu | ]. split; [exact Hm | ].
    exact (proj1 (proj2 (manual_action_requires_moderator
                           (Sample.world Sample.carol true)
                           (Sample.post 0 "end-cooldown") Sample.db0))
             Sample.memes Sample.carol eq_refl ltac:(discriminate) eq_refl Hu Hm).
  - split; [exact Hc | ].
    exact (proj2 (proj2 (manual_action_requires_moderator
                           (Sample.world Sample.bob true)
                           (Sample.post 0 "end-cooldown") Sample.db0)) Hc).
Defined.

End authorisation.

(** ** The token validators *)

Section validators.

Variable ch : Chain.

Implicit Types (props : TokenProps) (chain addr : jsstring).

Lemma falsy_Some_cons (s : jsstring) : s <> [] -> falsy (Some s) = false.
Proof. destruct s; [congruence | reflexivity]. Qed.

Lemma getContractRead_ok chain addr c a :
  getAddress ch addr = Some a -> clientsByChainId ch chain = Some c ->
  getContractRead ch chain addr = Fulfilled (c, a).
Proof. unfold getContractRead. intros -> ->. reflexivity. Qed.

(** C8 (as stated, false).  Without a [chainId], [validateErc721] still
    answers [true] for the special-cased contract address (in any
    letter case), on a chain where every read fails. *)
Lemma validateErc721_special_case_without_chainId :
  validateErc721 Sample.deadChain
    {| chainId := None;
       contractAddress := Some (lit "0x8CE608CE2B5004397FAEF1556BFE33BDFBE4696D");
       tokenId := None |}
  = Fulfilled true.
Proof. vm_compute. reflexivity. Qed.

(** C8 (amended).  When a validator reaches its on-chain read and the
    read fails, it is fulfilled with [false] instead of being rejected.
    [validateErc1155] and [validateErc20] are fulfilled with [false]
    whenever [chainId] or [contractAddress] is missing or empty;
    [validateErc721] does so too unless [contractAddress] is the
    special-cased address, which it accepts before looking at
    [chainId]. *)
Theorem validators_answer_false props :
  (forall chain addr c a e,
      chainId props = Some chain -> chain <> [] ->
      contractAddress props = Some addr -> addr <> [] ->
      getAddress ch addr = Some a -> clientsByChainId ch chain = Some c ->
      (supportsInterface ch c a (lit "0xd9b67a26") = Rejected e ->
       validateErc1155 ch props = Fulfilled false)
      /\ (toLowerCase addr <> toLowerCase deployers721a ->
          supportsInterface ch c a (lit "0x80ac58cd") = Rejected e ->
          validateErc721 ch props = Fulfilled false)
      /\ (toLowerCase addr ∉ alwaysAllow ->
          allowance ch c a probe probe = Rejected e ->
          validateErc20 ch props = Fulfilled false))
  /\ (falsy (chainId props) = true \/ falsy (contractAddress props) = true ->
      validateErc1155 ch props = Fulfilled false
      /\ validateErc20 ch props = Fulfilled false
      /\ (toLowerCase <$> contractAddress props <> Some (toLowerCase deployers721a) ->
          validateErc721 ch props = Fulfilled false)).
Proof.
  split.
  - intros chain addr c a e Hc Hcne Ha Hane Hga Hcl.
    pose proof (getContractRead_ok _ _ _ _ Hga Hcl) as Hread.
    repeat split.
    + intros Hfail. unfold validateErc1155.
      rewrite Hc, Ha, !falsy_Some_cons by assumption. cbn [orb default from_option id].
      rewrite Hread. cbn [andThen]. rewrite Hfail. reflexivity.
    + intros Hnot Hfail. unfold validateErc721.
      rewrite Hc, Ha, !falsy_Some_cons by assumption. cbn [orb default from_option id fmap option_fmap option_map].
      rewrite bool_decide_eq_false_2 by congruence.
      rewrite Hread. cbn [andThen]. rewrite Hfail. reflexivity.
    + intros Hnot Hfail. unfold validateErc20.
      rewrite Hc, Ha, !falsy_Some_cons by assumption. cbn [orb default from_option id].
      rewrite bool_decide_eq_false_2 by assumption.
      rewrite Hread. cbn [andThen]. rewrite Hfail. reflexivity.
  - intros Hmiss.
    assert (Hor : falsy (chainId props) || falsy (contractAddress props) = true)
      by (apply orb_true_iff; exact Hmiss).
    repeat split.
    + unfold validateErc1155. rewrite Hor. reflexivity.
    + unfold validateErc20. rewrite Hor. reflexivity.
    + intros Hnot. unfold validateErc721.
      rewrite bool_decide_eq_false_2 by assumption. rewrite Hor. reflexivity.
Qed.

End validators.

Lemma validators_answer_false_witness :
  (getAddress Sample.deadChain (lit "0x5Af0D9827E0c53E4799BB226655A1de152A425a5")
     = Some (lit "0x5Af0D9827E0c53E4799BB226655A1de152A425a5")
   /\ clientsByChainId Sample.deadChain (lit "8453") = Some tt
   /\ supportsInterface Sample.deadChain tt
        (lit "0x5Af0D9827E0c53E4799BB226655A1de152A425a5") (lit "0x80ac58cd")
      = Rejected ExternalError
   /\ validateErc721 Sample.deadChain
        {| chainId := Some (lit "8453");
           contractAddress := Some (lit "0x5Af0D9827E0c53E4799BB226655A1de152A425a5");
           tokenId := None |}
      = Fulfilled false)
  /\ (falsy (None : option jsstring) = true
      /\ validateErc20 Sample.deadChain
           {| chainId := None;
              contractAddress := Some (lit "0xa8a30E0dafCA4156f28d96cCa5671a0eEcA5E407");
              tokenId := None |}
         = Fulfilled false).
Proof.
  split.
  - split; [reflexivity | ]. split; [reflexivity | ]. split; [reflexivity | ].
    refine (proj1 (proj2 (proj1 (validators_answer_false Sample.deadChain
              {| chainId := Some (lit "8453");
                 contractAddress := Some (lit "0x5Af0D9827E0c53E4799BB226655A1de152A425a5");
                 tokenId := None |})
              (lit "8453") (lit "0x5Af0D9827E0c53E4799BB226655A1de152A425a5")
              tt (lit "0x5Af0D9827E0c53E4799BB226655A1de152A425a5") ExternalError
              eq_refl _ eq_refl _ eq_refl eq_refl)) _ eq_refl).
    + discriminate.
    + discriminate.
    + vm_compute. discriminate.
  - split; [reflexivity | ].
    exact (proj1 (proj2 (proj2 (validators_answer_false Sample.deadChain
              {| chainId := None;
                 contractAddress := Some (lit "0xa8a30E0dafCA4156f28d96cCa5671a0eEcA5E407");
                 tokenId := None |}) (or_introl eq_refl)))).
Defined.

(** ** The manual actions of the moderation-log route *)

Section manual_actions.

Import LogsRoute.

Implicit Types (w : World) (db : Db) (req : Request) (log : ModerationLog).

Lemma parseIntent_end_cooldown : parseIntent (lit "end-cooldown") = Some EndCooldown.
Proof. vm_compute. reflexivity. Qed.
Lemma parseIntent_unmute : parseIntent (lit "unmute") = Some Unmute.
Proof. vm_compute. reflexivity. Qed.
Lemma parseIntent_unhide : parseIntent (lit "unhide") = Some Unhide.
Proof. vm_compute. reflexivity. Qed.

Lemma safeParse_intent req logId s i :
  form_logId req = Some logId -> form_intent req = Some s -> parseIntent s = Some i ->
  safeParse req = Some (logId, i).
Proof. unfold safeParse. intros -> -> H. cbn. rewrite H. reflexivity. Qed.

(** Unfolds the handler of an authorised request down to the branch on
    the intent. *)
Ltac enter Hauth Hparse Hfind :=
  let id := fresh "id" in
  let uid := fresh "uid" in
  let u := fresh "u" in
  let r := fresh "r" in
  let Hp := fresh "Hp" in
  let Hid := fresh "Hid" in
  let Hs := fresh "Hs" in
  let Hu := fresh "Hu" in
  let Hm := fresh "Hm" in
  let Hr := fresh "Hr" in
  destruct Hauth as (id & uid & Hp & Hid & Hs & [u Hu] & Hm);
  pose proof Hm as (r & Hr & _);
  unfold action;
  rewrite (gate_open _ _ _ _ _ id uid u r Hp Hid Hs Hu Hr Hm);
  rewrite Hparse;
  unfold mbind at 1; unfold M_bind at 1;
  unfold moderationLog_findUnique, query; rewrite Hfind.

(** What [end-cooldown] and [unmute] do for an authorised request whose
    cooldown row exists: the row is set inactive and one entry is
    appended, whatever [active] was before. *)
Lemma end_cooldown_logs_whenever_row_exists w req db logId log c :
  authorised w (params_id req) db ->
  form_logId req = Some logId -> form_intent req = Some (lit "end-cooldown") ->
  List.find (fun l => bool_decide (log_id l = logId)) (moderationLog db) = Some log ->
  (forall id, params_id req = Some id ->
              cooldown db !! (log_affectedUserFid log, id) = Some c) ->
  exists entry db',
    action w req db = (Fulfilled (typedjson (lit "success") 200), db')
    /\ moderationLog db' = moderationLog db ++ [entry]
    /\ log_action entry = lit "cooldownEnded".
Proof.
  intros Hauth Hl Hi Hfind Hrow.
  pose proof (safeParse_intent _ _ _ _ Hl Hi parseIntent_end_cooldown) as Hparse.
  enter Hauth Hparse Hfind.
  specialize (Hrow _ Hp).
  unfold mbind, M_bind, cooldown_update, moderationLog_create, truthy, mret, M_ret.
  cbn [mc_id mkChannel]. rewrite Hrow.
  eexists _, _. split; [reflexivity | ]. split; reflexivity.
Qed.

Lemma unmute_logs_whenever_row_exists w req db logId log c :
  authorised w (params_id req) db ->
  form_logId req = Some logId -> form_intent req = Some (lit "unmute") ->
  List.find (fun l => bool_decide (log_id l = logId)) (moderationLog db) = Some log ->
  (forall id, params_id req = Some id ->
              cooldown db !! (log_affectedUserFid log, id) = Some c) ->
  exists entry db',
    action w req db = (Fulfilled (typedjson (lit "success") 200), db')
    /\ moderationLog db' = moderationLog db ++ [entry]
    /\ log_action entry = lit "unmuted".
Proof.
  intros Hauth Hl Hi Hfind Hrow.
  pose proof (safeParse_intent _ _ _ _ Hl Hi parseIntent_unmute) as Hparse.
  enter Hauth Hparse Hfind.
  specialize (Hrow _ Hp).
  unfold mbind, M_bind, cooldown_update, moderationLog_create, truthy, mret, M_ret.
  cbn [mc_id mkChannel]. rewrite Hrow.
  eexists _, _. split; [reflexivity | ]. split; reflexivity.
Qed.

(** C2 (defect).  The specification wants no new entry when the cooldown is
    already inactive.  In the sample installation the first
    "end-cooldown" sets the row inactive and logs "cooldownEnded"; the
    identical second request finds the row inactive and logs
    "cooldownEnded" again, and an "unmute" after that logs "unmuted":
    [update] returns the row it has written, so [if (updated)] always
    holds. *)
Theorem end_cooldown_twice_logs_twice :
  let w := Sample.world Sample.alice true in
  let db1 := (action w (Sample.post 0 "end-cooldown") Sample.db0).2 in
  let db2 := (action w (Sample.post 0 "end-cooldown") db1).2 in
  let db3 := (action w (Sample.post 0 "unmute") db2).2 in
  let count := fun (a : string) db =>
    length (List.filter (fun l => bool_decide (log_action l = lit a)) (moderationLog db)) in
  cooldown db1 !! (lit "13", Sample.memes) = Some {| active := false; expiresAt := None |}
  /\ count "cooldownEnded"%string Sample.db0 = 0%nat
  /\ count "cooldownEnded"%string db1 = 1%nat
  /\ count "cooldownEnded"%string db2 = 2%nat
  /\ count "unmuted"%string db2 = 0%nat
  /\ count "unmuted"%string db3 = 1%nat.
Proof. vm_compute. repeat split; reflexivity. Qed.

(** C4.  For an unhide request that refers to a log entry: if the entry
    has no cast hash (null or empty) the action throws and the database
    is as before, so nothing is logged.  With a cast hash and an
    authorised actor, a failure of the external unhide call is rethrown
    to the caller with the database as before, and after a successful
    call exactly one entry is appended, with action "unhide". *)
Theorem unhide_needs_castHash_and_success w req db logId log :
  form_logId req = Some logId -> form_intent req = Some (lit "unhide") ->
  List.find (fun l => bool_decide (log_id l = logId)) (moderationLog db) = Some log ->
  (falsy (log_castHash log) = true ->
   exists e, action w req db = (Rejected e, db))
  /\ (forall h,
        log_castHash log = Some h -> h <> [] ->
        authorised w (params_id req) db ->
        (forall e, unhide w h = Rejected e -> action w req db = (Rejected e, db))
        /\ (unhide w h = Fulfilled tt ->
            exists entry,
              action w req db
              = (Fulfilled (typedjson (lit "success") 200),
                 set_moderationLog (moderationLog db ++ [entry]) (logSeq db + 1)%N db)
              /\ log_action entry = lit "unhide"
              /\ log_affectedUserFid entry = log_affectedUserFid log
              /\ Some (log_channelId entry) = params_id req)).
Proof.
  intros Hl Hi Hfind.
  pose proof (safeParse_intent _ _ _ _ Hl Hi parseIntent_unhide) as Hparse.
  split.
  - intros Hnone.
    destruct (authorised_dec w (params_id req) db) as [Hauth | Hno].
    + enter Hauth Hparse Hfind.
      unfold mbind, M_bind, invariant, throw.
      destruct (log_castHash log) as [[ | ? ?] | ]; try discriminate;
        eexists; reflexivity.
    + unfold action. apply gate_closed. exact Hno.
  - intros h Hh Hne Hauth. split.
    + intros e He. enter Hauth Hparse Hfind.
      unfold mbind, M_bind, invariant, await, mret, M_ret. rewrite Hh.
      destruct h as [ | c h']; [congruence | ]. rewrite He. reflexivity.
    + intros Hok. enter Hauth Hparse Hfind.
      unfold mbind, M_bind, invariant, await, moderationLog_create, mret, M_ret.
      rewrite Hh. destruct h as [ | c h']; [congruence | ]. rewrite Hok.
      eexists. split; [reflexivity | ]. cbn. rewrite Hp. repeat split; reflexivity.
Qed.

Lemma unhide_needs_castHash_and_success_witness :
  let bob := Sample.world Sample.bob true in
  let bob_down := Sample.world Sample.bob false in
  (falsy (log_castHash (Sample.entry 2 (lit "warnAndHide") Sample.memes None 120)) = true
   /\ exists e, action bob (Sample.post 2 "unhide") Sample.db0 = (Rejected e, Sample.db0))
  /\ (unhide bob_down (lit "0xa1b2c3") = Rejected ExternalError
      /\ action bob_down (Sample.post 1 "unhide") Sample.db0
         = (Rejected ExternalError, Sample.db0))
  /\ (unhide bob (lit "0xa1b2c3") = Fulfilled tt
      /\ exists entry,
           action bob (Sample.post 1 "unhide") Sample.db0
           = (Fulfilled (typedjson (lit "success") 200),
              set_moderationLog (moderationLog Sample.db0 ++ [entry])
                (logSeq Sample.db0 + 1)%N Sample.db0)
           /\ log_action entry = lit "unhide"
           /\ log_affectedUserFid entry = lit "13"
           /\ Some (log_channelId entry) = Some Sample.memes).
Proof.
  intros bob bob_down.
  assert (Hauth : forall ok n s,
             authorised (Sample.world Sample.bob ok)
               (params_id (Sample.post n s)) Sample.db0).
  { intros ok n s. exists Sample.memes, Sample.bob.
    split; [reflexivity | ]. split; [discriminate | ]. split; [reflexivity | ].
    split; [eexists; vm_compute; reflexivity | ].
    exists {| row_userId := Sample.alice; row_disableBannedList := 0 |}.
    split; [vm_compute; reflexivity | ]. right.
    exists {| comod_fid := Sample.bob; comod_channelId := Sample.memes |}.
    split; [apply list_elem_of_here | split; reflexivity]. }
  split; [ | split].
  - split; [reflexivity | ].
    exact (proj1 (unhide_needs_castHash_and_success bob (Sample.post 2 "unhide")
                    Sample.db0 2%N
                    (Sample.entry 2 (lit "warnAndHide") Sample.memes None 120)
                    eq_refl eq_refl eq_refl) eq_refl).
  - split; [reflexivity | ].
    exact (proj1 (proj2 (unhide_needs_castHash_and_success bob_down
                           (Sample.post 1 "unhide") Sample.db0 1%N
                           (Sample.entry 1 (lit "hideQuietly") Sample.memes
                              (Some (lit "0xa1b2c3")) 110)
                           eq_refl eq_refl eq_refl)
                    (lit "0xa1b2c3") eq_refl ltac:(discriminate) (Hauth false _ _))
             ExternalError eq_refl).
  - split; [reflexivity | ].
    exact (proj2 (proj2 (unhide_needs_castHash_and_success bob
                           (Sample.post 1 "unhide") Sample.db0 1%N
                           (Sample.entry 1 (lit "hideQuietly") Sample.memes
                              (Some (lit "0xa1b2c3")) 110)
                           eq_refl eq_refl eq_refl)
                    (lit "0xa1b2c3") eq_refl ltac:(discriminate) (Hauth true _ _))
             eq_refl).
Defined.

End manual_actions.

(** ** Channel deletion, and what else touches the moderation log *)

Section deletion.

Implicit Types (w : World) (db : Db).

Lemma parseIntent_deleteChannel :
  SettingsRoute.parseIntent (lit "deleteChannel") = Some SettingsRoute.DeleteChannel.
Proof. vm_compute. reflexivity. Qed.

Lemma elem_of_filter_negb {A} (P : A -> bool) (l : list A) (x : A) :
  x ∈ List.filter (fun y => negb (P y)) l <-> x ∈ l /\ P x = false.
Proof. rewrite !list_elem_of_In, filter_In, negb_true_iff. reflexivity. Qed.

(** The loader only reads. *)
Lemma loader_reads_only w req db : (LogsRoute.loader w req db).2 = db.
Proof.
  destruct (authorised_dec w (LogsRoute.params_id req) db) as [Hauth | Hno].
  - destruct Hauth as (id & uid & Hp & Hid & Hs & [u Hu] & Hm).
    pose proof Hm as (r & Hr & _).
    unfold LogsRoute.loader.
    rewrite (gate_open _ _ _ _ _ id uid u r Hp Hid Hs Hu Hr Hm). reflexivity.
  - unfold LogsRoute.loader.
    edestruct (@gate_closed LogsRoute.LoaderData) as [e He]; [exact Hno | ].
    rewrite He. reflexivity.
Qed.

Lemma settings_loader_reads_only w req db : (SettingsRoute.loader w req db).2 = db.
Proof.
  destruct (authorised_dec w (SettingsRoute.params_id req) db) as [Hauth | Hno].
  - destruct Hauth as (id & uid & Hp & Hid & Hs & [u Hu] & Hm).
    pose proof Hm as (r & Hr & _).
    unfold SettingsRoute.loader.
    rewrite (gate_open _ _ _ _ _ id uid u r Hp Hid Hs Hu Hr Hm). reflexivity.
  - unfold SettingsRoute.loader.
    edestruct (@gate_closed SettingsRoute.LoaderData) as [e He]; [exact Hno | ].
    rewrite He. reflexivity.
Qed.

(** The manual actions only ever append to the moderation log. *)
Lemma manual_action_appends w req db :
  exists extra,
    moderationLog (LogsRoute.action w req db).2 = moderationLog db ++ extra.
Proof.
  destruct (authorised_dec w (LogsRoute.params_id req) db) as [Hauth | Hno].
  2:{ unfold LogsRoute.action.
      edestruct (@gate_closed LogsRoute.Response) as [e He]; [exact Hno | ].
      rewrite He. exists []. rewrite app_nil_r. reflexivity. }
  destruct Hauth as (id & uid & Hp & Hid & Hs & [u Hu] & Hm).
  pose proof Hm as (r & Hr & _).
  unfold LogsRoute.action.
  rewrite (gate_open _ _ _ _ _ id uid u r Hp Hid Hs Hu Hr Hm).
  destruct (LogsRoute.safeParse req) as [[logId i] | ];
    [ | exists []; rewrite app_nil_r; reflexivity].
  unfold mbind at 1; unfold M_bind at 1.
  unfold moderationLog_findUnique, query.
  destruct (List.find _ (moderationLog db)) as [log | ];
    [ | exists []; rewrite app_nil_r; reflexivity].
  unfold mbind, M_bind, cooldown_update, moderationLog_create, invariant, await,
    throw, LogsRoute.truthy, mret, M_ret.
  destruct i.
  - destruct (cooldown db !! _); cbn;
      [eexists [_]; reflexivity | exists []; rewrite app_nil_r; reflexivity].
  - destruct (cooldown db !! _); cbn;
      [eexists [_]; reflexivity | exists []; rewrite app_nil_r; reflexivity].
  - destruct (log_castHash log) as [[ | c h] | ]; cbn;
      try (exists []; rewrite app_nil_r; reflexivity).
    destruct (unhide w (c :: h)); cbn;
      [eexists [_]; reflexivity | exists []; rewrite app_nil_r; reflexivity].
Qed.

(** The settings action, by intent. *)
Lemma settings_delete w req db id :
  authorised w (SettingsRoute.params_id req) db ->
  SettingsRoute.params_id req = Some id ->
  SettingsRoute.form_intent req = Some (lit "deleteChannel") ->
  SettingsRoute.action w req db
  = (Fulfilled (SettingsRoute.successResponse (lit "Channel removed")),
     set_moderatedChannel (delete id (moderatedChannel db))
       (set_castLog
          (List.filter (fun c => negb (bool_decide (cast_channelId c = id))) (castLog db))
          (set_moderationLog
             (List.filter (fun l => negb (inChannel id l)) (moderationLog db)) (logSeq db)
             (set_comods
                (List.filter (fun c => negb (bool_decide (comod_channelId c = id)))
                   (comods db)) db)))).
Proof.
  intros Hauth Hp' Hi.
  destruct Hauth as (id' & uid & Hp & Hid & Hs & [u Hu] & Hm).
  assert (id' = id) as -> by congruence.
  pose proof Hm as (r & Hr & _).
  unfold SettingsRoute.action.
  rewrite (gate_open _ _ _ _ _ id uid u r Hp Hid Hs Hu Hr Hm).
  rewrite Hi. cbn [mbind option_bind]. rewrite parseIntent_deleteChannel.
  unfold mbind, M_bind, comods_deleteMany, moderationLog_deleteMany,
    castLog_deleteMany, moderatedChannel_delete, mret, M_ret.
  cbn [mc_id mkChannel moderatedChannel set_castLog set_moderationLog set_comods].
  rewrite Hr. reflexivity.
Qed.

Lemma settings_keeps_other_logs w req db l :
  l ∈ moderationLog db ->
  l ∉ moderationLog (SettingsRoute.action w req db).2 ->
  SettingsRoute.form_intent req = Some (lit "deleteChannel")
  /\ authorised w (SettingsRoute.params_id req) db
  /\ SettingsRoute.params_id req = Some (log_channelId l).
Proof.
  intros Hin Hout.
  destruct (authorised_dec w (SettingsRoute.params_id req) db) as [Hauth | Hno].
  2:{ exfalso. apply Hout. unfold SettingsRoute.action.
      edestruct (@gate_closed SettingsRoute.Response) as [e He]; [exact Hno | ].
      rewrite He. exact Hin. }
  pose proof Hauth as (id & uid & Hp & Hid & Hs & [u Hu] & Hm).
  pose proof Hm as (r & Hr & _).
  destruct (SettingsRoute.form_intent req) as [s | ] eqn:Hi.
  2:{ exfalso. apply Hout. unfold SettingsRoute.action.
      rewrite (gate_open _ _ _ _ _ id uid u r Hp Hid Hs Hu Hr Hm), Hi. exact Hin. }
  destruct (SettingsRoute.parseIntent s) as [[ | ] | ] eqn:Hparse.
  - assert (s = lit "deleteChannel") as ->.
    { unfold SettingsRoute.parseIntent in Hparse.
      destruct (bool_decide (s = lit "deleteChannel")) eqn:Hs1;
        [apply bool_decide_eq_true in Hs1; exact Hs1 | ].
      destruct (bool_decide (s = lit "updateBannedListSetting")); discriminate. }
    split; [reflexivity | ]. split; [exact Hauth | ].
    rewrite (settings_delete w req db id Hauth Hp Hi) in Hout. cbn in Hout.
    rewrite Hp. f_equal.
    destruct (decide (log_channelId l = id)) as [Heq | Hne]; [congruence | ].
    exfalso. apply Hout. apply elem_of_filter_negb.
    split; [exact Hin | ]. unfold inChannel. apply bool_decide_eq_false_2, Hne.
  - exfalso. apply Hout. unfold SettingsRoute.action.
    rewrite (gate_open _ _ _ _ _ id uid u r Hp Hid Hs Hu Hr Hm), Hi.
    cbn [mbind option_bind]. rewrite Hparse.
    unfold mbind, M_bind, moderatedChannel_update, mret, M_ret.
    cbn [mc_id mkChannel]. rewrite Hr.
    destruct (SettingsRoute.form_followBannedList req); exact Hin.
  - exfalso. apply Hout. unfold SettingsRoute.action.
    rewrite (gate_open _ _ _ _ _ id uid u r Hp Hid Hs Hu Hr Hm), Hi.
    cbn [mbind option_bind]. rewrite Hparse. exact Hin.
Qed.

(** C9.  An authorised "deleteChannel" on channel [id] succeeds and leaves
    exactly those comods, moderation-log and cast-log rows that belong to
    other channels, removes the channel's own row and no other channel
    row, and does not touch the cooldown and user tables.  And among the
    loaders and actions of the two routes (no other handler of the sources
    writes to the log), an entry of the moderation log disappears only
    through an authorised "deleteChannel" on the entry's own channel. *)
Theorem deleteChannel_removes_only_its_channel :
  (forall w req db id,
      authorised w (SettingsRoute.params_id req) db ->
      SettingsRoute.params_id req = Some id ->
      SettingsRoute.form_intent req = Some (lit "deleteChannel") ->
      exists db',
        SettingsRoute.action w req db
        = (Fulfilled (SettingsRoute.successResponse (lit "Channel removed")), db')
        /\ (forall c, c ∈ comods db' <-> c ∈ comods db /\ comod_channelId c <> id)
        /\ (forall l, l ∈ moderationLog db' <-> l ∈ moderationLog db /\ log_channelId l <> id)
        /\ (forall c, c ∈ castLog db' <-> c ∈ castLog db /\ cast_channelId c <> id)
        /\ moderatedChannel db' !! id = None
        /\ (forall id', id' <> id -> moderatedChannel db' !! id' = moderatedChannel db !! id')
        /\ cooldown db' = cooldown db
        /\ user db' = user db)
  /\ (forall w h db l,
        l ∈ moderationLog db -> l ∉ moderationLog (run w h db) ->
        exists req,
          h = SettingsAction req
          /\ SettingsRoute.form_intent req = Some (lit "deleteChannel")
          /\ authorised w (SettingsRoute.params_id req) db
          /\ SettingsRoute.params_id req = Some (log_channelId l)).
Proof.
  split.
  - intros w req db id Hauth Hp Hi.
    rewrite (settings_delete w req db id Hauth Hp Hi).
    eexists. split; [reflexivity | ].
    cbn [comods moderationLog castLog moderatedChannel cooldown user
         set_moderatedChannel set_castLog set_moderationLog set_comods].
    split; [intros c; rewrite elem_of_filter_negb, bool_decide_eq_false; reflexivity | ].
    split; [intros l; unfold inChannel;
            rewrite elem_of_filter_negb, bool_decide_eq_false; reflexivity | ].
    split; [intros c; rewrite elem_of_filter_negb, bool_decide_eq_false; reflexivity | ].
    split; [apply lookup_delete_eq | ].
    split; [intros id' Hne; apply lookup_delete_ne; congruence | ].
    split; reflexivity.
  - intros w h db l Hin Hout. destruct h as [req | req | req | req]; cbn [run] in Hout.
    + rewrite loader_reads_only in Hout. contradiction.
    + destruct (manual_action_appends w req db) as [extra He].
      rewrite He in Hout. exfalso. apply Hout. apply elem_of_app. left. exact Hin.
    + rewrite settings_loader_reads_only in Hout. contradiction.
    + exists req. split; [reflexivity | ].
      exact (settings_keeps_other_logs w req db l Hin Hout).
Qed.

Lemma deleteChannel_removes_only_its_channel_witness :
  let w := Sample.world Sample.bob true in
  let req := Sample.remove Sample.memes in
  let gone := Sample.entry 0 (lit "cooldown") Sample.memes None 100 in
  authorised w (SettingsRoute.params_id req) Sample.db0
  /\ (exists db',
        SettingsRoute.action w req Sample.db0
        = (Fulfilled (SettingsRoute.successResponse (lit "Channel removed")), db')
        /\ moderatedChannel db' !! Sample.memes = None
        /\ cooldown db' = cooldown Sample.db0)
  /\ (gone ∈ moderationLog Sample.db0)
  /\ (gone ∉ moderationLog (run w (SettingsAction req) Sample.db0))
  /\ (exists req',
        SettingsAction req = SettingsAction req'
        /\ SettingsRoute.params_id req' = Some (log_channelId gone)).
Proof.
  intros w req gone.
  assert (Hauth : authorised w (SettingsRoute.params_id req) Sample.db0).
  { exists Sample.memes, Sample.bob.
    split; [reflexivity | ]. split; [discriminate | ]. split; [reflexivity | ].
    split; [eexists; vm_compute; reflexivity | ].
    exists {| row_userId := Sample.alice; row_disableBannedList := 0 |}.
    split; [vm_compute; reflexivity | ]. right.
    exists {| comod_fid := Sample.bob; comod_channelId := Sample.memes |}.
    split; [apply list_elem_of_here | split; reflexivity]. }
  assert (Hin : gone ∈ moderationLog Sample.db0) by apply list_elem_of_here.
  assert (Hout : gone ∉ moderationLog (run w (SettingsAction req) Sample.db0)).
  { cbn [run]. rewrite (settings_delete w req Sample.db0 Sample.memes Hauth eq_refl eq_refl).
    cbn [snd moderationLog set_moderatedChannel set_castLog set_moderationLog].
    rewrite elem_of_filter_negb. intros [_ H]. vm_compute in H. discriminate. }
  split; [exact Hauth | ].
  split.
  - destruct (proj1 deleteChannel_removes_only_its_channel w req Sample.db0 Sample.memes
                Hauth eq_refl eq_refl)
      as (db' & Hrun & _ & _ & _ & Hgone & _ & Hcool & _).
    exists db'. auto.
  - split; [exact Hin | ]. split; [exact Hout | ].
    destruct (proj2 deleteChannel_removes_only_its_channel w (SettingsAction req)
                Sample.db0 gone Hin Hout)
      as (req' & Hreq & _ & _ & Hp).
    exists req'. auto.
Defined.

End deletion.

(** ** Paging of the moderation log *)

Section paging.

Import LogsRoute.

Implicit Types (q : searchParams) (w : World) (db : Db).

#[local] Instance newerFirst_total : Total newerFirst.
Proof. intros a b. unfold newerFirst. lia. Qed.
#[local] Instance newerFirst_trans : Transitive newerFirst.
Proof. intros a b c. unfold newerFirst. lia. Qed.


(** Without a [pageSize] parameter the page size is 50, without a [page]
    parameter the page is 1. *)
Lemma getPageInfo_defaults q :
  (get (lit "pageSize") q = None -> pageSize (getPageInfo q) = 50)
  /\ (get (lit "page") q = None -> page (getPageInfo q) = 1).
Proof.
  unfold getPageInfo. cbn [page pageSize]. split; intros ->; reflexivity.
Qed.

(** When the [pageSize] parameter reads as a number (or is left out), the
    offset is [(page - 1) * pageSize]. *)
Lemma getPageInfo_skip q :
  is_Some (parseInt (orElse (get (lit "pageSize") q) (lit "50"))) ->
  skip (getPageInfo q) = (page (getPageInfo q) - 1) * pageSize (getPageInfo q).
Proof.
  unfold getPageInfo. cbn [page pageSize skip].
  change (decimal (Z.to_N defaultPageSize)) with (lit "50").
  intros [s ->].
  destruct (parseInt (orElse (get (lit "page") q) (lit "1"))) as [p | ]; cbn; lia.
Qed.

(** What the loader hands to the page for an authorised request: the
    channel's entries, newest first, cut to the window of the page. *)
Lemma loader_window w req db :
  authorised w (params_id req) db ->
  exists id d,
    params_id req = Some id
    /\ loader w req db = (Fulfilled d, db)
    /\ ld_page d = page (getPageInfo (search req))
    /\ ld_pageSize d = pageSize (getPageInfo (search req))
    /\ ld_total d = Z.of_nat (length (List.filter (inChannel id) (moderationLog db)))
    /\ ld_moderationLogs d
       = take (Z.to_nat (pageSize (getPageInfo (search req))))
           (drop (Z.to_nat (skip (getPageInfo (search req))))
              (merge_sort newerFirst (List.filter (inChannel id) (moderationLog db)))).
Proof.
  intros (id & uid & Hp & Hid & Hs & [u Hu] & Hm).
  pose proof Hm as (r & Hr & _).
  unfold loader. rewrite (gate_open _ _ _ _ _ id uid u r Hp Hid Hs Hu Hr Hm).
  eexists id, _. split; [exact Hp | ]. split; [reflexivity | ].
  cbn. repeat split; reflexivity.
Qed.

Lemma window_sorted (l : list ModerationLog) (n k : nat) :
  StronglySorted newerFirst (take n (drop k (merge_sort newerFirst l))).
Proof.
  pose proof (StronglySorted_merge_sort newerFirst l) as Hs.
  rewrite <- (take_drop k (merge_sort newerFirst l)) in Hs.
  apply StronglySorted_app_1_r in Hs.
  rewrite <- (take_drop n (drop k (merge_sort newerFirst l))) in Hs.
  apply StronglySorted_app_1_l in Hs. exact Hs.
Qed.

(** The entries of a page come newest first, and its length is what the
    window leaves of the channel's entries. *)
Lemma loader_newest_first w req db id d :
  params_id req = Some id ->
  loader w req db = (Fulfilled d, db) ->
  authorised w (params_id req) db ->
  StronglySorted newerFirst (ld_moderationLogs d)
  /\ length (ld_moderationLogs d)
     = (Z.to_nat (ld_pageSize d)
        `min` (Z.to_nat (ld_total d) - Z.to_nat (skip (getPageInfo (search req)))))%nat.
Proof.
  intros Hp Hd Hauth.
  destruct (loader_window w req db Hauth) as (id' & d' & Hp' & Hd' & _ & Hps & Htot & Hlogs).
  assert (id' = id) as -> by congruence.
  assert (d' = d) as -> by congruence.
  rewrite Hlogs. split; [apply window_sorted | ].
  rewrite length_take, length_drop, merge_sort_Permutation, Hps, Htot, Nat2Z.id.
  reflexivity.
Qed.

(** On any channel with 120 entries, pages 1, 2 and 3 of size 50 hold 50,
    50 and 20 entries and together are the whole log, newest first. *)
Lemma three_pages_of_120 (l : list ModerationLog) :
  length l = 120%nat ->
  let all := merge_sort newerFirst l in
  let p1 := take 50 (drop 0 all) in
  let p2 := take 50 (drop 50 all) in
  let p3 := take 50 (drop 100 all) in
  length p1 = 50%nat /\ length p2 = 50%nat /\ length p3 = 20%nat
  /\ p1 ++ p2 ++ p3 = all /\ StronglySorted newerFirst all.
Proof.
  intros Hlen all p1 p2 p3.
  assert (Hall : length all = 120%nat)
    by (unfold all; rewrite merge_sort_Permutation; exact Hlen).
  split; [unfold p1; rewrite length_take, length_drop; lia | ].
  split; [unfold p2; rewrite length_take, length_drop; lia | ].
  split; [unfold p3; rewrite length_take, length_drop; lia | ].
  split; [ | apply StronglySorted_merge_sort; apply _].
  unfold p1, p2, p3. rewrite drop_0.
  rewrite (take_ge (drop 100 all)) by (rewrite length_drop; lia).
  replace (drop 100 all) with (drop 50 (drop 50 all)) by (rewrite drop_drop; reflexivity).
  rewrite (take_drop 50 (drop 50 all)). apply take_drop.
Qed.

(** The "next" link is off on the last page and beyond. *)
Lemma nextPage_past_last p ps total :
  0 < ps -> 0 <= total -> p * ps >= total -> nextPage p ps total = None.
Proof.
  intros Hps Htot Hlast. unfold nextPage, ceilDiv.
  rewrite (proj2 (Z.eqb_neq ps 0)) by lia.
  assert (- (- total / ps) <= p).
  { assert (- p <= - total / ps); [ | lia].
    apply Z.div_le_lower_bound; lia. }
  destruct (p + 1 >? - (- total / ps)) eqn:Hcmp; [reflexivity | lia].
Qed.

(** The worked example of the specification, on the sample installation
    with 120 entries: the first page holds the 50 newest entries, the
    third page the 20 oldest, and there is no fourth page. *)
Lemma sample_pages :
  let ids := fun req =>
    match (loader (Sample.world Sample.alice true) req Sample.db120).1 with
    | Fulfilled d => log_id <$> ld_moderationLogs d
    | Rejected _ => []
    end in
  ids (Sample.visit [("page", "1"); ("pageSize", "50")]%string)
    = N.of_nat <$> reverse (seq 70 50)
  /\ ids (Sample.visit [("page", "3"); ("pageSize", "50")]%string)
     = N.of_nat <$> reverse (seq 0 20)
  /\ nextPage 1 50 120 = Some 2 /\ nextPage 3 50 120 = None.
Proof. vm_compute. repeat split; reflexivity. Qed.

(** C5 (defect).  The specification wants the offset to be [(page - 1) * pageSize]
    for every request.  With [?page=2&pageSize=abc] the handler reports
    page 2 of size 50 but offset 0: the offset is computed from the
    unparsed page size, NaN, and then reset to 0, so the request is served
    the 50 newest entries, the same as page 1. *)
Theorem page_two_with_unreadable_pageSize :
  let q := [(lit "page", lit "2"); (lit "pageSize", lit "abc")] in
  let ids := fun req =>
    match (loader (Sample.world Sample.alice true) req Sample.db120).1 with
    | Fulfilled d => log_id <$> ld_moderationLogs d
    | Rejected _ => []
    end in
  getPageInfo q = {| page := 2; pageSize := 50; skip := 0 |}
  /\ skip (getPageInfo q) <> (page (getPageInfo q) - 1) * pageSize (getPageInfo q)
  /\ ids (Sample.visit [("page", "2"); ("pageSize", "abc")]%string)
     = ids (Sample.visit [("page", "1")]%string)
  /\ ids (Sample.visit [("page", "2"); ("pageSize", "abc")]%string)
     = N.of_nat <$> reverse (seq 70 50).
Proof. vm_compute. repeat split; (reflexivity || discriminate). Qed.

End paging.

(* ===================================================================== *)
(** * Part III: further properties of the same code                       *)
(* ===================================================================== *)

(** ** Page numbers in links and query strings *)

Section page_links.

Import LogsRoute LogsScreen.

Lemma digitValue_digit d : (d < 10)%N -> digitValue 10 (digit d) = Some (Z.of_N d).
Proof.
  intros Hd. unfold digitValue, digit.
  rewrite (proj2 (N.leb_le 48 (48 + d))) by lia.
  rewrite (proj2 (N.leb_le (48 + d) 57)) by lia.
  cbn [andb]. rewrite (proj2 (Z.ltb_lt _ 10)) by lia. f_equal. lia.
Qed.

(** [decimal] writes the digits of [n], most significant first, and
    [digits] reads them back. *)
Lemma decimalFuel_digits fuel : forall n acc,
  (N.to_nat n < fuel)%nat ->
  exists ds,
    decimalFuel fuel n acc = ds ++ acc
    /\ ds <> [] /\ Forall isDigit ds
    /\ forall a rest,
         digits 10 a (ds ++ rest)
         = digits 10 (Some (default 0 a * 10 ^ Z.of_nat (length ds) + Z.of_N n)) rest.
Proof.
  induction fuel as [ | fuel IH]; intros n acc Hfuel; [lia | ].
  cbn [decimalFuel].
  assert (Hmod : (n mod 10 < 10)%N) by (apply N.mod_lt; lia).
  destruct (n / 10 =? 0)%N eqn:Hq.
  - apply N.eqb_eq in Hq.
    assert (Hn : (n mod 10 = n)%N).
    { pose proof (N.div_mod n 10 ltac:(lia)). lia. }
    exists [digit (n mod 10)]. split; [reflexivity | ]. split; [discriminate | ].
    split; [constructor; [unfold isDigit, digit; lia | constructor] | ].
    intros a rest. cbn [app digits length].
    rewrite (digitValue_digit _ Hmod), Hn. f_equal; try (f_equal; lia).
  - apply N.eqb_neq in Hq.
    assert (Hlt : (N.to_nat (n / 10) < fuel)%nat).
    { assert (n <> 0)%N by (intros ->; apply Hq; reflexivity).
      assert (n / 10 < n)%N by (apply N.div_lt; lia). lia. }
    destruct (IH (n / 10)%N (digit (n mod 10) :: acc) Hlt) as (ds & Heq & Hne & Hall & Hread).
    exists (ds ++ [digit (n mod 10)]).
    split; [rewrite Heq, <- app_assoc; reflexivity | ].
    split; [destruct ds; discriminate | ].
    split.
    { apply Forall_app. split; [exact Hall | ].
      constructor; [ | constructor]. unfold isDigit, digit.
      clear - Hmod. revert Hmod. generalize (n mod 10)%N. intros d Hd. lia. }
    intros a rest. rewrite <- app_assoc. cbn [app].
    rewrite Hread. cbn [digits]. rewrite (digitValue_digit _ Hmod).
    cbn [default from_option id]. f_equal. f_equal.
    rewrite length_app. cbn [length].
    replace (Z.of_nat (length ds + 1)) with (Z.of_nat (length ds) + 1) by lia.
    rewrite Z.pow_add_r by lia.
    pose proof (N.div_mod n 10 ltac:(lia)) as Hdm.
    assert (Z.of_N n = 10 * Z.of_N (n / 10) + Z.of_N (n mod 10)) by lia.
    lia.
Qed.

Lemma decimal_digits n :
  exists ds,
    decimal n = ds /\ ds <> [] /\ Forall isDigit ds
    /\ digits 10 None ds = Some (Z.of_N n).
Proof.
  destruct (decimalFuel_digits (S (N.to_nat n)) n [] ltac:(lia))
    as (ds & Heq & Hne & Hall & Hread).
  exists ds. rewrite app_nil_r in Heq. split; [exact Heq | ].
  split; [exact Hne | ]. split; [exact Hall | ].
  specialize (Hread None []). rewrite app_nil_r in Hread. rewrite Hread.
  cbn [digits default from_option]. f_equal; try lia.
Qed.

Lemma isDigit_cases c :
  isDigit c ->
  c = 48%N \/ c = 49%N \/ c = 50%N \/ c = 51%N \/ c = 52%N
  \/ c = 53%N \/ c = 54%N \/ c = 55%N \/ c = 56%N \/ c = 57%N.
Proof. unfold isDigit. lia. Qed.

(** On a string of digits [parseInt] skips nothing and reads base 10. *)
Lemma parseInt_all_digits ds :
  ds <> [] -> Forall isDigit ds -> parseInt ds = digits 10 None ds.
Proof.
  intros Hne Hall. destruct ds as [ | c s]; [congruence | ].
  apply Forall_cons in Hall as [Hc Hs].
  assert (Hid : forall o : option Z, (fun n => 1 * n) <$> o = o).
  { intros [z | ]; cbn; [f_equal; lia | reflexivity]. }
  destruct (isDigit_cases c Hc) as [-> | Hrest].
  - destruct s as [ | d s'].
    + reflexivity.
    + apply Forall_cons in Hs as [Hd _].
      destruct (isDigit_cases d Hd)
        as [-> | [-> | [-> | [-> | [-> | [-> | [-> | [-> | [-> | ->]]]]]]]]];
        unfold parseInt; cbn [trimStart isWhiteSpace]; apply Hid.
  - destruct Hrest as [-> | [-> | [-> | [-> | [-> | [-> | [-> | [-> | ->]]]]]]]];
      unfold parseInt; cbn [trimStart isWhiteSpace]; apply Hid.
Qed.

Lemma parseInt_decimal_aux n : parseInt (decimal n) = Some (Z.of_N n).
Proof.
  destruct (decimal_digits n) as (ds & -> & Hne & Hall & Hread).
  rewrite (parseInt_all_digits ds Hne Hall). exact Hread.
Qed.








End page_links.

(** ** What the log page is served *)

Section log_pages.

Import LogsRoute.

#[local] Instance newerFirst_total' : Total newerFirst.
Proof. intros a b. unfold newerFirst. lia. Qed.
#[local] Instance newerFirst_trans' : Transitive newerFirst.
Proof. intros a b c. unfold newerFirst. lia. Qed.

Lemma window_in_channel db id (n k : nat) x :
  x ∈ take n (drop k (merge_sort newerFirst (List.filter (inChannel id) (moderationLog db)))) ->
  x ∈ moderationLog db /\ log_channelId x = id.
Proof.
  intros Hx. apply subseteq_take, subseteq_drop in Hx.
  rewrite merge_sort_Permutation in Hx.
  apply list_elem_of_In, filter_In in Hx as [Hin Hch].
  split; [apply list_elem_of_In, Hin | ].
  unfold inChannel in Hch. apply bool_decide_eq_true in Hch. exact Hch.
Qed.





End log_pages.

(** ** More on the manual actions *)

Section more_manual_actions.

Import LogsRoute LogsScreen.

Implicit Types (w : World) (db : Db) (req : Request) (log : ModerationLog).

Ltac open_action Hauth :=
  let id := fresh "id" in
  let uid := fresh "uid" in
  let u := fresh "u" in
  let r := fresh "r" in
  let Hp := fresh "Hp" in
  let Hid := fresh "Hid" in
  let Hs := fresh "Hs" in
  let Hu := fresh "Hu" in
  let Hm := fresh "Hm" in
  let Hr := fresh "Hr" in
  destruct Hauth as (id & uid & Hp & Hid & Hs & [u Hu] & Hm);
  pose proof Hm as (r & Hr & _);
  unfold action;
  rewrite (gate_open _ _ _ _ _ id uid u r Hp Hid Hs Hu Hr Hm).

Lemma parseIntent_Some s i :
  parseIntent s = Some i ->
  s = lit "end-cooldown" \/ s = lit "unmute" \/ s = lit "unhide".
Proof.
  unfold parseIntent.
  destruct (bool_decide (s = lit "end-cooldown")) eqn:H1;
    [apply bool_decide_eq_true in H1; auto | ].
  destruct (bool_decide (s = lit "unmute")) eqn:H2;
    [apply bool_decide_eq_true in H2; auto | ].
  destruct (bool_decide (s = lit "unhide")) eqn:H3;
    [apply bool_decide_eq_true in H3; auto | discriminate].
Qed.

Lemma parseIntent_None s :
  s <> lit "end-cooldown" -> s <> lit "unmute" -> s <> lit "unhide" ->
  parseIntent s = None.
Proof.
  intros H1 H2 H3. unfold parseIntent.
  rewrite !bool_decide_eq_false_2 by assumption. reflexivity.
Qed.

(** X6.  A manual action never removes or rewrites an entry of the
    moderation log and touches no table but the cooldowns and the log: it
    appends at most one entry, stamped with the time of the request, with
    no cast hash, and with action "cooldownEnded", "unmuted" or "unhide",
    for none of which the log page offers a menu. *)
Theorem manual_action_appends_one_entry_at_most w req db :
  (exists extra,
      moderationLog (action w req db).2 = moderationLog db ++ extra
      /\ (length extra <= 1)%nat
      /\ forall e, e ∈ extra ->
           log_id e = logSeq db /\ log_createdAt e = now w /\ log_castHash e = None
           /\ log_action e ∈ [lit "cooldownEnded"; lit "unmuted"; lit "unhide"]
           /\ menuIntent (log_action e) = None)
  /\ comods (action w req db).2 = comods db
  /\ castLog (action w req db).2 = castLog db
  /\ moderatedChannel (action w req db).2 = moderatedChannel db
  /\ user (action w req db).2 = user db.
Proof.
  set (P := fun db' : Db =>
    (exists extra,
        moderationLog db' = moderationLog db ++ extra
        /\ (length extra <= 1)%nat
        /\ forall e, e ∈ extra ->
             log_id e = logSeq db /\ log_createdAt e = now w /\ log_castHash e = None
             /\ log_action e ∈ [lit "cooldownEnded"; lit "unmuted"; lit "unhide"]
             /\ menuIntent (log_action e) = None)
    /\ comods db' = comods db
    /\ castLog db' = castLog db
    /\ moderatedChannel db' = moderatedChannel db
    /\ user db' = user db).
  change (P (action w req db).2).
  assert (Hsame : P db).
  { split; [ | repeat split].
    exists []. rewrite app_nil_r. split; [reflexivity | ]. split; [cbn; lia | ].
    intros e He. inversion He. }
  assert (Hone : forall (d : LogData) (c : gmap (jsstring * jsstring) Cooldown),
             d_action d ∈ [lit "cooldownEnded"; lit "unmuted"; lit "unhide"] ->
             menuIntent (d_action d) = None ->
             P (moderationLog_create (now w) d (set_cooldown c db)).2).
  { intros d c Hact Hmenu. split; [ | repeat split].
    eexists [_]. split; [reflexivity | ]. split; [cbn; lia | ].
    intros e He. apply list_elem_of_singleton in He as ->. cbn. auto. }
  assert (Hone' : forall (d : LogData),
             d_action d ∈ [lit "cooldownEnded"; lit "unmuted"; lit "unhide"] ->
             menuIntent (d_action d) = None ->
             P (moderationLog_create (now w) d db).2).
  { intros d Hact Hmenu. split; [ | repeat split].
    eexists [_]. split; [reflexivity | ]. split; [cbn; lia | ].
    intros e He. apply list_elem_of_singleton in He as ->. cbn. auto. }
  destruct (authorised_dec w (params_id req) db) as [Hauth | Hno].
  2:{ unfold action.
      edestruct (@gate_closed Response) as [e He]; [exact Hno | ].
      rewrite He. exact Hsame. }
  open_action Hauth.
  destruct (safeParse req) as [[logId i] | ]; [ | exact Hsame].
  unfold mbind at 1; unfold M_bind at 1.
  unfold moderationLog_findUnique, query.
  destruct (List.find _ (moderationLog db)) as [log | ]; [ | exact Hsame].
  unfold mbind, M_bind, cooldown_update, invariant, await, throw, truthy, mret, M_ret.
  destruct i.
  - destruct (cooldown db !! _) as [c | ]; [ | exact Hsame].
    refine (Hone (logData (lit "cooldownEnded") log _ _ _) _ _ _);
      [cbn; set_solver | vm_compute; reflexivity].
  - destruct (cooldown db !! _) as [c | ]; [ | exact Hsame].
    refine (Hone (logData (lit "unmuted") log _ _ _) _ _ _);
      [cbn; set_solver | vm_compute; reflexivity].
  - destruct (log_castHash log) as [[ | c h] | ]; try exact Hsame.
    destruct (unhide w (c :: h)); [ | exact Hsame].
    refine (Hone' (logData (lit "unhide") log _ _ _) _ _);
      [cbn; set_solver | vm_compute; reflexivity].
Qed.

(** X7.  "end-cooldown" and "unmute" by an authorised user, on a log
    entry that exists (of whatever channel): if the cooldown of the
    entry's user in the channel of the route is recorded, it is set
    inactive with its expiry kept, every other cooldown stays, and one
    entry is appended that names the acting user, the channel of the
    route and the user of the entry referred to; if no such cooldown is
    recorded, the action fails with the database untouched. *)
Theorem ending_a_cooldown w req db logId log s id uid u :
  authorised w (params_id req) db ->
  params_id req = Some id -> sessionUser w = Some uid -> user db !! uid = Some u ->
  form_logId req = Some logId -> form_intent req = Some s ->
  s = lit "end-cooldown" \/ s = lit "unmute" ->
  List.find (fun l => bool_decide (log_id l = logId)) (moderationLog db) = Some log ->
  (forall c,
      cooldown db !! (log_affectedUserFid log, id) = Some c ->
      exists entry,
        action w req db
        = (Fulfilled (typedjson (lit "success") 200),
           set_moderationLog (moderationLog db ++ [entry]) (logSeq db + 1)%N
             (set_cooldown
                (<[(log_affectedUserFid log, id) :=
                     {| active := false; expiresAt := expiresAt c |}]> (cooldown db)) db))
        /\ log_action entry
           = (if bool_decide (s = lit "end-cooldown")
              then lit "cooldownEnded" else lit "unmuted")
        /\ log_actor entry = uid
        /\ log_channelId entry = id
        /\ log_affectedUserFid entry = log_affectedUserFid log
        /\ log_reason entry
           = (if bool_decide (s = lit "end-cooldown")
              then lit "Cooldown ended by @" else lit "Unmuted by @") ++ user_name u)
  /\ (cooldown db !! (log_affectedUserFid log, id) = None ->
      action w req db = (Rejected RecordNotFound, db)).
Proof.
  intros Hauth Hp' Hs' Hu' Hl Hi Hwhich Hfind.
  assert (Hyes : bool_decide (lit "end-cooldown" = lit "end-cooldown") = true)
    by (vm_compute; reflexivity).
  assert (Hnot : bool_decide (lit "unmute" = lit "end-cooldown") = false)
    by (vm_compute; reflexivity).
  assert (Hparse : safeParse req
                   = Some (logId, if bool_decide (s = lit "end-cooldown")
                                  then EndCooldown else Unmute)).
  { destruct Hwhich as [-> | ->];
      [rewrite Hyes; exact (safeParse_intent _ _ _ _ Hl Hi parseIntent_end_cooldown)
      | rewrite Hnot; exact (safeParse_intent _ _ _ _ Hl Hi parseIntent_unmute)]. }
  split; [intros c Hc | intros Hc];
    open_action Hauth;
    assert (id0 = id) as -> by congruence;
    assert (uid0 = uid) as -> by congruence;
    assert (u0 = u) as -> by congruence;
    rewrite Hparse;
    unfold mbind at 1; unfold M_bind at 1;
    unfold moderationLog_findUnique, query; rewrite Hfind;
    unfold mbind, M_bind, cooldown_update, moderationLog_create, truthy, mret, M_ret;
    cbn [mc_id mkChannel];
    destruct Hwhich as [-> | ->]; rewrite ?Hyes, ?Hnot; cbn iota; rewrite Hc.
  - eexists; split; [reflexivity | repeat split; reflexivity].
  - eexists; split; [reflexivity | repeat split; reflexivity].
  - reflexivity.
  - reflexivity.
Qed.

Lemma ending_a_cooldown_witness :
  let w := Sample.world Sample.alice true in
  let req := Sample.post 3 "unmute" in
  authorised w (params_id req) Sample.db0
  /\ log_channelId (Sample.entry 3 (lit "mute") Sample.books None 130) = Sample.books
  /\ cooldown Sample.db0 !! (lit "13", Sample.memes)
     = Some {| active := true; expiresAt := None |}
  /\ exists entry db',
       action w req Sample.db0 = (Fulfilled (typedjson (lit "success") 200), db')
       /\ log_action entry = lit "unmuted"
       /\ log_channelId entry = Sample.memes
       /\ log_reason entry = lit "Unmuted by @alice".
Proof.
  intros w req.
  assert (Hauth : authorised w (params_id req) Sample.db0).
  { exists Sample.memes, Sample.alice.
    split; [reflexivity | ]. split; [discriminate | ]. split; [reflexivity | ].
    split; [eexists; vm_compute; reflexivity | ].
    exists {| row_userId := Sample.alice; row_disableBannedList := 0 |}.
    split; [vm_compute; reflexivity | ]. left. reflexivity. }
  split; [exact Hauth | ]. split; [reflexivity | ].
  assert (Hc : cooldown Sample.db0 !! (lit "13", Sample.memes)
               = Some {| active := true; expiresAt := None |})
    by (vm_compute; reflexivity).
  split; [exact Hc | ].
  destruct (proj1 (ending_a_cooldown w req Sample.db0 3%N
                     (Sample.entry 3 (lit "mute") Sample.books None 130)
                     (lit "unmute") Sample.memes Sample.alice
                     {| user_name := lit "alice" |}
                     Hauth eq_refl eq_refl ltac:(vm_compute; reflexivity)
                     eq_refl eq_refl (or_intror eq_refl) eq_refl)
              _ Hc)
    as (entry & Hrun & Hact & _ & Hch & _ & Hreason).
  exists entry. eexists. split; [exact Hrun | ].
  split; [exact Hact | ]. split; [exact Hch | exact Hreason].
Defined.

(** X8.  For an authorised user, a form without a [logId], without an
    [intent], or with an intent other than "end-cooldown", "unmute" and
    "unhide" is answered 422 "Invalid data", and a well-formed form whose
    [logId] names no entry is answered 404 "Log not found"; in both cases
    the database is untouched. *)
Theorem malformed_requests_change_nothing w req db :
  authorised w (params_id req) db ->
  (form_logId req = None \/ form_intent req = None
   \/ (exists s, form_intent req = Some s
                 /\ s <> lit "end-cooldown" /\ s <> lit "unmute" /\ s <> lit "unhide") ->
   action w req db = (Fulfilled (typedjson (lit "Invalid data") 422), db))
  /\ (forall logId s,
        form_logId req = Some logId -> form_intent req = Some s ->
        s = lit "end-cooldown" \/ s = lit "unmute" \/ s = lit "unhide" ->
        (forall l, l ∈ moderationLog db -> log_id l <> logId) ->
        action w req db = (Fulfilled (typedjson (lit "Log not found") 404), db)).
Proof.
  intros Hauth. split.
  - intros Hbad.
    assert (Hparse : safeParse req = None).
    { unfold safeParse. destruct Hbad as [-> | [-> | (s & -> & H1 & H2 & H3)]].
      - reflexivity.
      - destruct (form_logId req); reflexivity.
      - destruct (form_logId req); [ | reflexivity].
        cbn. rewrite (parseIntent_None s H1 H2 H3). reflexivity. }
    open_action Hauth. rewrite Hparse. reflexivity.
  - intros logId s Hl Hi Hs Hnone.
    assert (Hparse : exists i, safeParse req = Some (logId, i)).
    { destruct Hs as [-> | [-> | ->]]; eexists;
        eapply safeParse_intent; try eassumption; vm_compute; reflexivity. }
    destruct Hparse as [i Hparse].
    assert (Hfind : List.find (fun l => bool_decide (log_id l = logId)) (moderationLog db)
                    = None).
    { destruct (List.find _ (moderationLog db)) as [l | ] eqn:Hf; [ | reflexivity].
      apply find_some in Hf as [Hin Hl']. apply bool_decide_eq_true in Hl'.
      exfalso. exact (Hnone l (proj2 (list_elem_of_In _ _) Hin) Hl'). }
    open_action Hauth. rewrite Hparse.
    unfold mbind at 1; unfold M_bind at 1.
    unfold moderationLog_findUnique, query. rewrite Hfind. reflexivity.
Qed.

Lemma malformed_requests_change_nothing_witness :
  let w := Sample.world Sample.alice true in
  authorised w (params_id (Sample.post 0 "delete")) Sample.db0
  /\ action w (Sample.post 0 "delete") Sample.db0
     = (Fulfilled (typedjson (lit "Invalid data") 422), Sample.db0)
  /\ action w (Sample.post 77 "unhide") Sample.db0
     = (Fulfilled (typedjson (lit "Log not found") 404), Sample.db0).
Proof.
  intros w.
  assert (Hauth : forall n s, authorised w (params_id (Sample.post n s)) Sample.db0).
  { intros n s. exists Sample.memes, Sample.alice.
    split; [reflexivity | ]. split; [discriminate | ]. split; [reflexivity | ].
    split; [eexists; vm_compute; reflexivity | ].
    exists {| row_userId := Sample.alice; row_disableBannedList := 0 |}.
    split; [vm_compute; reflexivity | ]. left. reflexivity. }
  split; [apply Hauth | ]. split.
  - apply (proj1 (malformed_requests_change_nothing w (Sample.post 0 "delete")
                    Sample.db0 (Hauth _ _))).
    right. right. exists (lit "delete"). split; [reflexivity | ].
    repeat split; discriminate.
  - apply (proj2 (malformed_requests_change_nothing w (Sample.post 77 "unhide")
                    Sample.db0 (Hauth _ _)) 77%N (lit "unhide") eq_refl eq_refl).
    + right. right. reflexivity.
    + intros l Hl. cbn in Hl. set_unfold in Hl.
      destruct Hl as [-> | [-> | [-> | [-> | []]]]]; discriminate.
Defined.

End more_manual_actions.

(** ** More on the settings route and on who may do what *)

Section more_authorisation.

Import UtilsHelpers.

Implicit Types (w : World) (db : Db).

#[local] Instance newerFirst_total'' : Total newerFirst.
Proof. intros a b. unfold newerFirst. lia. Qed.
#[local] Instance newerFirst_trans'' : Transitive newerFirst.
Proof. intros a b c. unfold newerFirst. lia. Qed.





(** X10.  Once a channel has been deleted nobody can moderate it any
    more: [canUserModerateChannel] answers false for every user, a repeat
    of the delete request is refused with 403, and so is every manual
    action on that channel, all with the database untouched. *)
Theorem deleted_channel_is_closed w req db id :
  authorised w (SettingsRoute.params_id req) db ->
  SettingsRoute.params_id req = Some id ->
  SettingsRoute.form_intent req = Some (lit "deleteChannel") ->
  let db' := (SettingsRoute.action w req db).2 in
  (forall uid,
      canUserModerateChannel uid id db'
      = (Fulfilled {| UtilsServer.result := false; channel := None |}, db'))
  /\ SettingsRoute.action w req db' = (Rejected (Redirect (lit "/") 403), db')
  /\ (forall w2 req2 uid,
        LogsRoute.params_id req2 = Some id ->
        sessionUser w2 = Some uid -> is_Some (user db !! uid) ->
        LogsRoute.action w2 req2 db' = (Rejected (Redirect (lit "/") 403), db')).
Proof.
  intros Hauth Hp Hi db'.
  assert (Hgone : moderatedChannel db' !! id = None).
  { unfold db'. rewrite (settings_delete w req db id Hauth Hp Hi).
    cbn [snd moderatedChannel set_moderatedChannel]. apply lookup_delete_eq. }
  assert (Huser : user db' = user db).
  { unfold db'. rewrite (settings_delete w req db id Hauth Hp Hi). reflexivity. }
  assert (Hno : forall uid, ~ isLeadOrComod db' uid id).
  { intros uid (r & Hr & _). congruence. }
  destruct Hauth as (id' & uid0 & Hp' & Hid & Hs & Hu & _).
  assert (id' = id) as -> by congruence.
  split; [intros uid; apply canUserModerateChannel_no, Hno | ].
  split.
  - unfold SettingsRoute.action.
    apply (gate_forbidden w db' _ _ _ id uid0); auto. rewrite Huser. exact Hu.
  - intros w2 req2 uid Hp2 Hs2 Hu2. unfold LogsRoute.action.
    apply (gate_forbidden w2 db' _ _ _ id uid); auto. rewrite Huser. exact Hu2.
Qed.

Lemma deleted_channel_is_closed_witness :
  let w := Sample.world Sample.alice true in
  let req := Sample.remove Sample.memes in
  let db' := (SettingsRoute.action w req Sample.db0).2 in
  authorised w (SettingsRoute.params_id req) Sample.db0
  /\ canUserModerateChannel Sample.alice Sample.memes db'
     = (Fulfilled {| UtilsServer.result := false; channel := None |}, db')
  /\ SettingsRoute.action w req db' = (Rejected (Redirect (lit "/") 403), db').
Proof.
  intros w req db'.
  assert (Hauth : authorised w (SettingsRoute.params_id req) Sample.db0).
  { exists Sample.memes, Sample.alice.
    split; [reflexivity | ]. split; [discriminate | ]. split; [reflexivity | ].
    split; [eexists; vm_compute; reflexivity | ].
    exists {| row_userId := Sample.alice; row_disableBannedList := 0 |}.
    split; [vm_compute; reflexivity | ]. left. reflexivity. }
  split; [exact Hauth | ].
  pose proof (deleted_channel_is_closed w req Sample.db0 Sample.memes Hauth eq_refl eq_refl)
    as (Hnobody & Hagain & _).
  split; [apply Hnobody | exact Hagain].
Defined.

(** X11.  [requireUserOwnsChannel] lets in the lead of the channel and
    nobody else: the lead gets the channel, with at most 25 of its log
    entries, newest first, and would pass [requireUserCanModerateChannel]
    with the same channel; anyone who is not the lead, a comod included,
    gets the 403 redirect.  The database is never changed. *)
Theorem only_the_lead_owns userId channelId db :
  (forall r,
      moderatedChannel db !! channelId = Some r -> row_userId r = userId ->
      exists c,
        requireUserOwnsChannel userId channelId db = (Fulfilled c, db)
        /\ oc_channel c = mkChannel channelId r
        /\ (length (oc_moderationLogs c) <= 25)%nat
        /\ StronglySorted newerFirst (oc_moderationLogs c)
        /\ (forall x, x ∈ oc_moderationLogs c ->
                      x ∈ moderationLog db /\ log_channelId x = channelId)
        /\ requireUserCanModerateChannel userId channelId db = (Fulfilled (oc_channel c), db))
  /\ ((forall r, moderatedChannel db !! channelId = Some r -> row_userId r <> userId) ->
      requireUserOwnsChannel userId channelId db = (Rejected (Redirect (lit "/") 403), db)).
Proof.
  split.
  - intros r Hr Hlead.
    unfold requireUserOwnsChannel, mbind, M_bind, query, mret, M_ret.
    rewrite Hr, (bool_decide_eq_true_2 _ Hlead).
    eexists. split; [reflexivity | ]. cbn [oc_channel oc_moderationLogs].
    split; [reflexivity | ].
    split; [rewrite length_take; lia | ].
    split.
    { pose proof (window_sorted
                    (List.filter (inChannel channelId) (moderationLog db)) 25 0) as Hs.
      rewrite drop_0 in Hs. exact Hs. }
    split.
    { intros x Hx. apply (window_in_channel db channelId 25 0). rewrite drop_0. exact Hx. }
    unfold requireUserCanModerateChannel, mbind, M_bind.
    rewrite (canUserModerateChannel_yes db userId channelId r Hr).
    + reflexivity.
    + exists r. auto.
  - intros Hnot.
    unfold requireUserOwnsChannel, mbind, M_bind, query, throw.
    destruct (moderatedChannel db !! channelId) as [r | ] eqn:Hr; [ | reflexivity].
    rewrite (bool_decide_eq_false_2 _ (Hnot r eq_refl)). reflexivity.
Qed.

Lemma only_the_lead_owns_witness :
  (moderatedChannel Sample.db0 !! Sample.memes
     = Some {| row_userId := Sample.alice; row_disableBannedList := 0 |}
   /\ exists c,
        requireUserOwnsChannel Sample.alice Sample.memes Sample.db0
        = (Fulfilled c, Sample.db0)
        /\ (length (oc_moderationLogs c) <= 25)%nat)
  /\ (isLeadOrComod Sample.db0 Sample.bob Sample.memes
      /\ requireUserOwnsChannel Sample.bob Sample.memes Sample.db0
         = (Rejected (Redirect (lit "/") 403), Sample.db0)).
Proof.
  assert (Hr : moderatedChannel Sample.db0 !! Sample.memes
               = Some {| row_userId := Sample.alice; row_disableBannedList := 0 |})
    by (vm_compute; reflexivity).
  split.
  - split; [exact Hr | ].
    destruct (proj1 (only_the_lead_owns Sample.alice Sample.memes Sample.db0) _ Hr eq_refl)
      as (c & Hrun & _ & Hlen & _).
    exists c. auto.
  - split.
    + exists {| row_userId := Sample.alice; row_disableBannedList := 0 |}.
      split; [exact Hr | ]. right.
      exists {| comod_fid := Sample.bob; comod_channelId := Sample.memes |}.
      split; [apply list_elem_of_here | split; reflexivity].
    + apply (proj2 (only_the_lead_owns Sample.bob Sample.memes Sample.db0)).
      intros r Hr'. rewrite Hr in Hr'. injection Hr' as <-. cbn. discriminate.
Defined.

(** X12.  [canUserExecuteAction] never changes the database and answers
    true exactly when the user is lead or comod of the channel (then for
    every action), or holds a delegate row of that channel whose role's
    permissions contain the permission of the action. *)
Theorem who_can_execute_an_action
    (actionToPermission : jsstring -> jsstring) (contains : jsstring -> jsstring -> bool)
    (delegates : list Delegate) (userId channelId action : jsstring) db :
  exists b,
    canUserExecuteAction actionToPermission contains delegates userId channelId action db
    = (Fulfilled b, db)
    /\ (b = true <->
        isLeadOrComod db userId channelId
        \/ exists d, d ∈ delegates
                     /\ delegate_channelId d = channelId /\ delegate_fid d = userId
                     /\ contains (delegate_permissions d) (actionToPermission action) = true).
Proof.
  unfold canUserExecuteAction, mbind, M_bind.
  destruct (isLeadOrComod_dec db userId channelId) as [Hm | Hm].
  - pose proof Hm as (r & Hr & _).
    rewrite (canUserModerateChannel_yes _ _ _ _ Hr Hm). cbn.
    eexists. split; [reflexivity | ]. split; auto.
  - rewrite (canUserModerateChannel_no _ _ _ Hm). cbn [UtilsServer.result mret M_ret].
    eexists. split; [reflexivity | ].
    rewrite bool_decide_eq_true. split.
    + intros Hfound. right.
      destruct (List.find _ delegates) as [d | ] eqn:Hf; [ | congruence].
      apply find_some in Hf as [Hin Hd].
      apply andb_true_iff in Hd as [Hd Hperm]. apply andb_true_iff in Hd as [Hc Hf].
      apply bool_decide_eq_true in Hc, Hf.
      exists d. split; [apply list_elem_of_In, Hin | auto].
    + intros [Hyes | (d & Hin & Hc & Hf & Hperm)]; [contradiction | ].
      destruct (List.find _ delegates) as [d' | ] eqn:Hfind; [discriminate | ].
      pose proof (find_none _ _ Hfind d (proj1 (list_elem_of_In _ _) Hin)) as Hd.
      cbn beta in Hd. rewrite !bool_decide_eq_true_2, Hperm in Hd by assumption.
      discriminate.
Qed.

End more_authorisation.

(** ** More on the token validators *)

Section more_validators.

Variable ch : Chain.

Implicit Types (props : TokenProps) (chain addr : jsstring).

Lemma allowlisted_nonempty addr : toLowerCase addr ∈ alwaysAllow -> addr <> [].
Proof. intros Hin ->. vm_compute in Hin. set_unfold in Hin. destruct Hin as [H | []]. discriminate. Qed.

Lemma special_nonempty addr : toLowerCase addr = toLowerCase deployers721a -> addr <> [].
Proof. intros H ->. vm_compute in H. discriminate. Qed.

(** X13.  The two hard-wired contracts are accepted in any letter case
    and without asking the chain, so also when the address would not
    checksum or the chain has no client: [validateErc721] accepts its
    special contract whatever [chainId] is, [validateErc20] accepts the
    contract of its allow list only when a [chainId] is given and answers
    false without one. *)
Theorem hard_wired_contracts_skip_the_chain props addr :
  contractAddress props = Some addr ->
  (toLowerCase addr = toLowerCase deployers721a ->
   validateErc721 ch props = Fulfilled true)
  /\ (toLowerCase addr ∈ alwaysAllow -> falsy (chainId props) = false ->
      validateErc20 ch props = Fulfilled true)
  /\ (toLowerCase addr ∈ alwaysAllow -> falsy (chainId props) = true ->
      validateErc20 ch props = Fulfilled false).
Proof.
  intros Ha. split; [ | split].
  - intros Hsp. unfold validateErc721. rewrite Ha. cbn [fmap option_fmap option_map].
    rewrite bool_decide_eq_true_2 by congruence. reflexivity.
  - intros Hin Hc. unfold validateErc20.
    rewrite Ha, Hc, (falsy_Some_cons _ (allowlisted_nonempty _ Hin)).
    cbn [orb default from_option id].
    rewrite bool_decide_eq_true_2 by exact Hin. reflexivity.
  - intros _ Hc. unfold validateErc20. rewrite Hc. reflexivity.
Qed.

(** X14.  When the set-up succeeds and the read answers, the two
    interface validators pass the contract's own answer on, true or
    false, while [validateErc20] answers true for every allowance read,
    zero included. *)
Theorem validators_pass_the_read_on props chain addr c a :
  chainId props = Some chain -> chain <> [] ->
  contractAddress props = Some addr -> addr <> [] ->
  getAddress ch addr = Some a -> clientsByChainId ch chain = Some c ->
  (forall b, supportsInterface ch c a (lit "0xd9b67a26") = Fulfilled b ->
             validateErc1155 ch props = Fulfilled b)
  /\ (toLowerCase addr <> toLowerCase deployers721a ->
      forall b, supportsInterface ch c a (lit "0x80ac58cd") = Fulfilled b ->
                validateErc721 ch props = Fulfilled b)
  /\ (toLowerCase addr ∉ alwaysAllow ->
      forall n, allowance ch c a probe probe = Fulfilled n ->
                validateErc20 ch props = Fulfilled true).
Proof.
  intros Hc Hcne Ha Hane Hga Hcl.
  pose proof (getContractRead_ok ch _ _ _ _ Hga Hcl) as Hread.
  split; [ | split].
  - intros b Hb. unfold validateErc1155.
    rewrite Hc, Ha, !falsy_Some_cons by assumption. cbn [orb default from_option id].
    rewrite Hread. cbn [andThen]. rewrite Hb. reflexivity.
  - intros Hnot b Hb. unfold validateErc721.
    rewrite Hc, Ha, !falsy_Some_cons by assumption.
    cbn [orb default from_option id fmap option_fmap option_map].
    rewrite bool_decide_eq_false_2 by congruence.
    rewrite Hread. cbn [andThen]. rewrite Hb. reflexivity.
  - intros Hnot n Hn. unfold validateErc20.
    rewrite Hc, Ha, !falsy_Some_cons by assumption. cbn [orb default from_option id].
    rewrite bool_decide_eq_false_2 by assumption.
    rewrite Hread. cbn [andThen]. rewrite Hn. reflexivity.
Qed.

(** X15.  Only the read is guarded: a contract address that
    [getAddress] refuses makes each validator throw instead of answering
    false (for [validateErc721] and [validateErc20], unless the address
    is one of the hard-wired ones). *)
Theorem validators_throw_on_a_malformed_address props chain addr :
  chainId props = Some chain -> chain <> [] ->
  contractAddress props = Some addr -> addr <> [] ->
  getAddress ch addr = None ->
  validateErc1155 ch props = Rejected InvalidAddressError
  /\ (toLowerCase addr <> toLowerCase deployers721a ->
      validateErc721 ch props = Rejected InvalidAddressError)
  /\ (toLowerCase addr ∉ alwaysAllow ->
      validateErc20 ch props = Rejected InvalidAddressError).
Proof.
  intros Hc Hcne Ha Hane Hga.
  assert (Hread : getContractRead ch chain addr = Rejected InvalidAddressError)
    by (unfold getContractRead; rewrite Hga; reflexivity).
  split; [ | split].
  - unfold validateErc1155.
    rewrite Hc, Ha, !falsy_Some_cons by assumption. cbn [orb default from_option id].
    rewrite Hread. reflexivity.
  - intros Hnot. unfold validateErc721.
    rewrite Hc, Ha, !falsy_Some_cons by assumption.
    cbn [orb default from_option id fmap option_fmap option_map].
    rewrite bool_decide_eq_false_2 by congruence.
    rewrite Hread. reflexivity.
  - intros Hnot. unfold validateErc20.
    rewrite Hc, Ha, !falsy_Some_cons by assumption. cbn [orb default from_option id].
    rewrite bool_decide_eq_false_2 by assumption.
    rewrite Hread. reflexivity.
Qed.

End more_validators.

Lemma hard_wired_contracts_skip_the_chain_witness :
  let props := {| chainId := Some (lit "8453");
                  contractAddress := Some (lit "0xA8A30E0DAFCA4156F28D96CCA5671A0EECA5E407");
                  tokenId := None |} in
  contractAddress props = Some (lit "0xA8A30E0DAFCA4156F28D96CCA5671A0EECA5E407")
  /\ toLowerCase (lit "0xA8A30E0DAFCA4156F28D96CCA5671A0EECA5E407") ∈ alwaysAllow
  /\ falsy (chainId props) = false
  /\ validateErc20 Sample.deadChain props = Fulfilled true.
Proof.
  intros props.
  assert (Hin : toLowerCase (lit "0xA8A30E0DAFCA4156F28D96CCA5671A0EECA5E407") ∈ alwaysAllow)
    by (vm_compute; apply list_elem_of_here).
  split; [reflexivity | ]. split; [exact Hin | ]. split; [reflexivity | ].
  exact (proj1 (proj2 (hard_wired_contracts_skip_the_chain Sample.deadChain props _ eq_refl))
           Hin eq_refl).
Defined.

Lemma validators_pass_the_read_on_witness :
  let zeroChain : Chain :=
    {| Client := unit; Address := jsstring;
       clientsByChainId := fun _ => Some tt;
       getAddress := fun a => Some a;
       supportsInterface := fun _ _ _ => Fulfilled false;
       allowance := fun _ _ _ _ => Fulfilled 0%N |} in
  let props := {| chainId := Some (lit "1");
                  contractAddress := Some (lit "0x5Af0D9827E0c53E4799BB226655A1de152A425a5");
                  tokenId := None |} in
  allowance zeroChain tt (lit "0x5Af0D9827E0c53E4799BB226655A1de152A425a5") probe probe
    = Fulfilled 0%N
  /\ validateErc20 zeroChain props = Fulfilled true
  /\ validateErc1155 zeroChain props = Fulfilled false.
Proof.
  intros zeroChain props.
  pose proof (validators_pass_the_read_on zeroChain props (lit "1")
                (lit "0x5Af0D9827E0c53E4799BB226655A1de152A425a5") tt
                (lit "0x5Af0D9827E0c53E4799BB226655A1de152A425a5")
                eq_refl ltac:(discriminate) eq_refl ltac:(discriminate) eq_refl eq_refl)
    as (H1155 & _ & H20).
  split; [reflexivity | ]. split.
  - apply (H20 ltac:(vm_compute; set_unfold; intros [H | []]; discriminate) 0%N eq_refl).
  - apply (H1155 false eq_refl).
Defined.

Lemma validators_throw_on_a_malformed_address_witness :
  let strictChain : Chain :=
    {| Client := unit; Address := jsstring;
       clientsByChainId := fun _ => Some tt;
       getAddress := fun a => if bool_decide (length a = 42%nat) then Some a else None;
       supportsInterface := fun _ _ _ => Fulfilled true;
       allowance := fun _ _ _ _ => Fulfilled 1%N |} in
  let props := {| chainId := Some (lit "1"); contractAddress := Some (lit "0x1234");
                  tokenId := None |} in
  getAddress strictChain (lit "0x1234") = None
  /\ validateErc1155 strictChain props = Rejected InvalidAddressError
  /\ validateErc20 strictChain props = Rejected InvalidAddressError.
Proof.
  intros strictChain props.
  pose proof (validators_throw_on_a_malformed_address strictChain props (lit "1")
                (lit "0x1234") eq_refl ltac:(discriminate) eq_refl ltac:(discriminate)
                eq_refl)
    as (H1155 & _ & H20).
  split; [reflexivity | ]. split; [exact H1155 | ].
  apply H20. vm_compute. set_unfold. intros [H | []]. discriminate.
Defined.

(** ** Small helpers of [utils.server] *)

Section helpers.

Import UtilsHelpers.

(** X16.  [formatHash] keeps the first three and the last three code
    units around three dots: the result has 9 code units for every hash of
    3 or more, and a hash of 3 or fewer appears whole on both sides. *)
Theorem formatHash_shape (hash : jsstring) :
  length (formatHash hash) = (3 + 2 * (3 `min` length hash))%nat
  /\ ((3 <= length hash)%nat ->
      take 3 (formatHash hash) = take 3 hash
      /\ drop 6 (formatHash hash) = drop (length hash - 3) hash)
  /\ ((length hash <= 3)%nat -> formatHash hash = hash ++ lit "..." ++ hash).
Proof.
  unfold formatHash. split; [ | split].
  - rewrite !length_app, length_take, length_drop.
    change (length (lit "...")) with 3%nat. lia.
  - intros Hlen. split.
    + rewrite take_app_le by (rewrite length_take; lia).
      rewrite take_take. reflexivity.
    + rewrite app_assoc, drop_app_length'; [reflexivity | ].
      rewrite length_app, length_take. change (length (lit "...")) with 3%nat. lia.
  - intros Hlen. rewrite take_ge by lia.
    replace (length hash - 3)%nat with 0%nat by lia. reflexivity.
Qed.

Lemma formatHash_shape_witness :
  (3 <= length (lit "0xa1b2c3d4"))%nat
  /\ take 3 (formatHash (lit "0xa1b2c3d4")) = lit "0xa"
  /\ drop 6 (formatHash (lit "0xa1b2c3d4")) = lit "3d4"
  /\ ((length (lit "ab") <= 3)%nat /\ formatHash (lit "ab") = lit "ab...ab").
Proof.
  split; [vm_compute; lia | ].
  destruct (proj1 (proj2 (formatHash_shape (lit "0xa1b2c3d4"))) ltac:(vm_compute; lia))
    as [Hhead Htail].
  split; [exact Hhead | ]. split; [exact Htail | ].
  split; [vm_compute; lia | ].
  exact (proj2 (proj2 (formatHash_shape (lit "ab"))) ltac:(vm_compute; lia)).
Defined.

End helpers.

(** ** The two recognisers of cast hashes and cast links *)

Section recognisers.

Import UtilsHelpers.

Lemma search_true (f : jsstring -> bool) (s : jsstring) :
  search f s = true <-> exists pre suf, s = pre ++ suf /\ f suf = true.
Proof.
  induction s as [ | c s IH]; cbn [search].
  - rewrite orb_false_r. split.
    + intros H. exists [], []. auto.
    + intros (pre & suf & Heq & H). symmetry in Heq.
      apply app_eq_nil in Heq as [_ ->]. exact H.
  - rewrite orb_true_iff, IH. split.
    + intros [H | (pre & suf & -> & H)].
      * exists [], (c :: s). auto.
      * exists (c :: pre), suf. auto.
    + intros (pre & suf & Heq & H). destruct pre as [ | c' pre].
      * left. cbn in Heq. subst suf. exact H.
      * right. injection Heq as -> ->. eauto.
Qed.

Lemma stripPrefix_Some (p s r : jsstring) : stripPrefix p s = Some r <-> s = p ++ r.
Proof.
  revert s. induction p as [ | a p IH]; intros s; cbn [stripPrefix app].
  - split; congruence.
  - destruct s as [ | b s]; [split; discriminate | ].
    destruct (bool_decide (a = b)) eqn:Hab.
    + apply bool_decide_eq_true in Hab as ->. rewrite IH. split; congruence.
    + apply bool_decide_eq_false in Hab. split; [discriminate | congruence].
Qed.

Lemma hexRun_true (n : nat) (s : jsstring) :
  hexRun n s = true <->
  exists hex post, s = hex ++ post /\ length hex = n /\ Forall (fun c => isHex c = true) hex.
Proof.
  revert s. induction n as [ | n IH]; intros s; cbn [hexRun].
  - split; [intros _; exists [], s; auto | reflexivity].
  - destruct s as [ | c s].
    + split; [discriminate | ].
      intros (hex & post & Heq & Hlen & _). destruct hex; discriminate.
    + rewrite andb_true_iff, IH. split.
      * intros (Hc & hex & post & -> & <- & Hall).
        exists (c :: hex), post. auto.
      * intros (hex & post & Heq & Hlen & Hall).
        destruct hex as [ | c' hex]; [discriminate | ].
        injection Heq as -> ->. apply Forall_cons in Hall as [Hc Hall].
        split; [exact Hc | ]. exists hex, post. auto.
Qed.

Lemma dropWhile_app (f : N -> bool) (run rest : jsstring) :
  Forall (fun c => f c = true) run ->
  match rest with c :: _ => f c = false | [] => True end ->
  dropWhile f (run ++ rest) = rest.
Proof.
  intros Hrun Hrest. induction Hrun as [ | c run Hc _ IH]; cbn [app dropWhile].
  - destruct rest as [ | c rest]; [reflexivity | ]. cbn. rewrite Hrest. reflexivity.
  - rewrite Hc. exact IH.
Qed.

Lemma dropWhile_split (f : N -> bool) (s : jsstring) :
  exists run, s = run ++ dropWhile f s /\ Forall (fun c => f c = true) run.
Proof.
  induction s as [ | c s (run & Heq & Hall)]; cbn [dropWhile].
  - exists []. auto.
  - destruct (f c) eqn:Hc.
    + exists (c :: run). split; [cbn; congruence | auto].
    + exists []. auto.
Qed.

(** X17.  [isCastHash] says yes exactly to the strings that contain,
    anywhere, [0x] followed by 40 hexadecimal digits: text before or after
    it, more digits included, does not matter, and nothing shorter than 42
    code units passes. *)
Theorem isCastHash_finds_a_hash_anywhere (value : jsstring) :
  (isCastHash value = true <->
   exists pre hex post,
     value = pre ++ lit "0x" ++ hex ++ post
     /\ length hex = 40%nat /\ Forall (fun c => isHex c = true) hex)
  /\ (isCastHash value = true -> (42 <= length value)%nat).
Proof.
  assert (Hiff : isCastHash value = true <->
                 exists pre hex post,
                   value = pre ++ lit "0x" ++ hex ++ post
                   /\ length hex = 40%nat /\ Forall (fun c => isHex c = true) hex).
  { unfold isCastHash. rewrite search_true. split.
    - intros (pre & suf & -> & Hat). unfold castHashAt in Hat.
      destruct (stripPrefix (lit "0x") suf) as [r | ] eqn:Hr; [ | discriminate].
      apply stripPrefix_Some in Hr as ->.
      apply hexRun_true in Hat as (hex & post & -> & Hlen & Hall).
      exists pre, hex, post. auto.
    - intros (pre & hex & post & -> & Hlen & Hall).
      exists pre, (lit "0x" ++ hex ++ post). split; [reflexivity | ].
      unfold castHashAt.
      rewrite (proj2 (stripPrefix_Some (lit "0x") _ (hex ++ post)) eq_refl).
      apply hexRun_true. exists hex, post. auto. }
  split; [exact Hiff | ].
  intros H. apply Hiff in H as (pre & hex & post & -> & Hlen & _).
  rewrite !length_app, Hlen. change (length (lit "0x")) with 2%nat. lia.
Qed.

(** X18.  [isWarpcastCastUrl] says yes exactly to the strings that
    contain, anywhere, [https://warpcast], any one character that is not a
    line break, [com/], a non-empty run of letters and digits, [/0x] and 8
    hexadecimal digits; the dot of the host name is not matched
    literally. *)
Theorem isWarpcastCastUrl_finds_a_link_anywhere (value : jsstring) :
  isWarpcastCastUrl value = true <->
  exists pre c name hex post,
    value = pre ++ lit "https://warpcast" ++ [c] ++ lit "com/" ++ name
            ++ lit "/0x" ++ hex ++ post
    /\ isDot c = true
    /\ name <> [] /\ Forall (fun c => isAlnum c = true) name
    /\ length hex = 8%nat /\ Forall (fun c => isHex c = true) hex.
Proof.
  unfold isWarpcastCastUrl. rewrite search_true. split.
  - intros (pre & suf & -> & Hat). unfold castUrlAt in Hat.
    destruct (stripPrefix (lit "https://warpcast") suf) as [[ | c r1] | ] eqn:H1;
      try discriminate.
    apply stripPrefix_Some in H1 as ->.
    apply andb_true_iff in Hat as [Hdot Hat].
    destruct (stripPrefix (lit "com/") r1) as [r2 | ] eqn:H2; [ | discriminate].
    apply stripPrefix_Some in H2 as ->.
    destruct r2 as [ | u r2]; [discriminate | ].
    apply andb_true_iff in Hat as [Hu Hat].
    destruct (stripPrefix (lit "/0x") (dropWhile isAlnum (u :: r2))) as [r3 | ] eqn:H3;
      [ | discriminate].
    apply stripPrefix_Some in H3.
    apply hexRun_true in Hat as (hex & post & -> & Hlen & Hall).
    destruct (dropWhile_split isAlnum (u :: r2)) as (name & Hname & Hrun).
    rewrite H3 in Hname.
    exists pre, c, name, hex, post.
    split; [rewrite Hname; reflexivity | ]. split; [exact Hdot | ].
    split; [ | auto].
    intros ->. cbn in Hname. injection Hname as ->. vm_compute in Hu. discriminate.
  - intros (pre & c & name & hex & post & -> & Hdot & Hne & Hname & Hlen & Hall).
    eexists pre, _. split; [reflexivity | ].
    unfold castUrlAt.
    rewrite (proj2 (stripPrefix_Some (lit "https://warpcast") _ _) eq_refl).
    cbn [app]. rewrite Hdot. cbn [andb].
    rewrite (proj2 (stripPrefix_Some (lit "com/") _ _) eq_refl).
    destruct name as [ | u name]; [congruence | ].
    pose proof Hname as Hname'. apply Forall_cons in Hname' as [Hu _].
    cbn [app]. rewrite Hu. cbn [andb].
    change (u :: name ++ lit "/0x" ++ hex ++ post)
      with ((u :: name) ++ lit "/0x" ++ hex ++ post).
    rewrite (dropWhile_app isAlnum (u :: name) (lit "/0x" ++ hex ++ post) Hname)
      by (vm_compute; reflexivity).
    rewrite (proj2 (stripPrefix_Some (lit "/0x") _ _) eq_refl).
    apply hexRun_true. exists hex, post. auto.
Qed.

End recognisers.

(** ** The read-through cache *)

Section cache.

Import UtilsHelpers.

Context {W : Type}.

Implicit Types (get : W -> settled value * W) (cache : Cache) (w : W).

(** X19.  On a miss [getSetCache] runs [get] once, returns its value and
    stores it under the key with the given time to live (0 when none is
    given), leaving the other keys alone; when that value is truthy, the
    next call for the key returns it without running its [get] at all,
    whatever that [get] and its time to live are. *)
Theorem getSetCache_fills_then_serves key ttl get cache w v w' :
  missing cache key ->
  get w = (Fulfilled v, w') ->
  let cache' := <[key := (v, default 0 ttl)]> cache in
  getSetCache key ttl get cache w = (Fulfilled v, cache', w')
  /\ (forall k, k <> key -> cache' !! k = cache !! k)
  /\ (truthyValue v = true ->
      forall ttl2 get2, getSetCache key ttl2 get2 cache' w' = (Fulfilled v, cache', w')).
Proof.
  intros Hmiss Hget cache'. unfold missing in Hmiss.
  split; [ | split].
  - unfold getSetCache. rewrite Hmiss, Hget. reflexivity.
  - intros k Hk. unfold cache'. apply lookup_insert_ne. congruence.
  - intros Hv ttl2 get2. unfold getSetCache, cache'.
    rewrite lookup_insert_eq. cbn [fmap option_fmap option_map fst default from_option id].
    rewrite Hv. reflexivity.
Qed.

(** X20.  What is not kept: a failure of [get] is passed on and stores
    nothing, and a falsy value (undefined, null, false, 0, the empty
    string) is stored but never served, so the next call runs its [get]
    again. *)
Theorem getSetCache_does_not_keep_failures_or_falsy_values key ttl get cache w :
  missing cache key ->
  (forall e w', get w = (Rejected e, w') ->
                getSetCache key ttl get cache w = (Rejected e, cache, w'))
  /\ (forall v w',
        get w = (Fulfilled v, w') -> truthyValue v = false ->
        let cache' := <[key := (v, default 0 ttl)]> cache in
        forall ttl2 get2 v2 w2,
          get2 w' = (Fulfilled v2, w2) ->
          getSetCache key ttl2 get2 cache' w'
          = (Fulfilled v2, <[key := (v2, default 0 ttl2)]> cache', w2)).
Proof.
  intros Hmiss. unfold missing in Hmiss. split.
  - intros e w' Hget. unfold getSetCache. rewrite Hmiss, Hget. reflexivity.
  - intros v w' Hget Hv cache' ttl2 get2 v2 w2 Hget2.
    unfold getSetCache, cache'.
    rewrite lookup_insert_eq. cbn [fmap option_fmap option_map fst default from_option id].
    rewrite Hv, Hget2. reflexivity.
Qed.

End cache.

Lemma getSetCache_fills_then_serves_witness :
  let get : nat -> settled value * nat := fun calls => (Fulfilled (VNum 7), S calls) in
  let fail : nat -> settled value * nat := fun calls => (Rejected ExternalError, S calls) in
  missing (∅ : UtilsHelpers.Cache) (lit "stats")
  /\ UtilsHelpers.getSetCache (lit "stats") None get ∅ 0%nat
     = (Fulfilled (VNum 7), {[ lit "stats" := (VNum 7, 0) ]}, 1%nat)
  /\ UtilsHelpers.getSetCache (lit "stats") (Some 60) fail
       ({[ lit "stats" := (VNum 7, 0) ]}) 1%nat
     = (Fulfilled (VNum 7), {[ lit "stats" := (VNum 7, 0) ]}, 1%nat).
Proof.
  intros get fail.
  assert (Hmiss : missing (∅ : UtilsHelpers.Cache) (lit "stats")) by reflexivity.
  destruct (getSetCache_fills_then_serves (lit "stats") None get ∅ 0%nat (VNum 7) 1%nat
              Hmiss eq_refl)
    as (Hfill & _ & Hserve).
  split; [exact Hmiss | ]. split.
  - rewrite Hfill. rewrite insert_empty. reflexivity.
  - specialize (Hserve eq_refl (Some 60) fail). rewrite insert_empty in Hserve.
    exact Hserve.
Defined.

Lemma getSetCache_does_not_keep_failures_or_falsy_values_witness :
  let zero : nat -> settled value * nat := fun calls => (Fulfilled (VNum 0), S calls) in
  missing (∅ : UtilsHelpers.Cache) (lit "count")
  /\ UtilsHelpers.truthyValue (VNum 0) = false
  /\ UtilsHelpers.getSetCache (lit "count") None zero
       (<[lit "count" := (VNum 0, 0)]> ∅) 1%nat
     = (Fulfilled (VNum 0),
        <[lit "count" := (VNum 0, 0)]> (<[lit "count" := (VNum 0, 0)]> ∅), 2%nat).
Proof.
  intros zero.
  assert (Hmiss : missing (∅ : UtilsHelpers.Cache) (lit "count")) by reflexivity.
  split; [exact Hmiss | ]. split; [reflexivity | ].
  exact (proj2 (getSetCache_does_not_keep_failures_or_falsy_values
                  (lit "count") None zero ∅ 0%nat Hmiss)
           (VNum 0) 1%nat eq_refl eq_refl None zero (VNum 0) 2%nat eq_refl).
Defined.

(** ** The install frame *)

Section install.

Import InstallRoute.

Variable actions : list CastAction.
Variable hostUrl : jsstring.
Variable actionToInstallLink : CastAction -> jsstring.

(** X21.  The frame of a valid index shows that action and posts to the
    index after it, wrapping to 0 after the last one, which is a valid
    index again: however often "Next" is pressed, the handler never runs
    off the list. *)
Theorem install_next_wraps_around (i : nat) (a : CastAction) :
  actions !! i = Some a ->
  let next := (S i mod length actions)%nat in
  action actions hostUrl actionToInstallLink (Some (decimal (N.of_nat i)))
  = Fulfilled {|
      f_title := lit "Automod Cast Actions";
      f_description := lit "Install automod cast actions";
      f_image := ca_image a;
      f_cacheTtlSeconds := 0;
      f_postUrl := hostUrl ++ lit "/install?index=" ++ decimal (N.of_nat next);
      f_buttons := [ {| b_text := lit "Install"; b_link := Some (actionToInstallLink a) |};
                     {| b_text := lit "Next"; b_link := None |} ] |}
  /\ is_Some (actions !! next).
Proof.
  intros Ha next.
  assert (Hlt : (i < length actions)%nat) by (eapply lookup_lt_Some; exact Ha).
  assert (Hnext : (next < length actions)%nat) by (apply Nat.mod_upper_bound; lia).
  split; [ | apply lookup_lt_is_Some; exact Hnext].
  unfold action. cbn [default from_option id].
  rewrite parseInt_decimal_aux. unfold at_.
  rewrite (proj2 (Z.leb_le 0 _)) by lia.
  replace (Z.to_nat (Z.of_N (N.of_nat i))) with i by lia. rewrite Ha.
  cbn [plus remainder].
  rewrite (proj2 (Z.eqb_neq (Z.of_nat (length actions)) 0)) by lia.
  unfold show.
  rewrite Z.rem_mod_nonneg by lia.
  assert (Hmod : (Z.of_N (N.of_nat i) + 1) mod Z.of_nat (length actions) = Z.of_nat next).
  { unfold next. rewrite Nat2Z.inj_mod. f_equal. lia. }
  rewrite Hmod, (proj2 (Z.leb_le 0 _)) by lia.
  replace (Z.to_N (Z.of_nat next)) with (N.of_nat next) by lia. reflexivity.
Qed.

(** X22.  The first frame shows the first action and posts to index 1; it
    offers "Next" exactly when there are two actions or more, and then
    index 1 is valid.  A missing [index] is read as 1.  An index that does
    not read as a number, or that is past the end of the list, makes the
    handler throw, and so does the first frame of an empty list. *)
Theorem install_edges :
  (forall a rest,
      actions = a :: rest ->
      loader actions hostUrl actionToInstallLink
      = Fulfilled {|
          f_title := lit "Automod Cast Actions";
          f_description := lit "Install automod cast actions";
          f_image := ca_image a;
          f_cacheTtlSeconds := 0;
          f_postUrl := hostUrl ++ lit "/install?index=1";
          f_buttons :=
            {| b_text := lit "Install"; b_link := Some (actionToInstallLink a) |}
            :: (if bool_decide (rest = []) then []
                else [ {| b_text := lit "Next"; b_link := None |} ]) |}
      /\ (rest <> [] -> is_Some (actions !! 1%nat)))
  /\ action actions hostUrl actionToInstallLink None
     = action actions hostUrl actionToInstallLink (Some (lit "1"))
  /\ (forall s, LogsRoute.parseInt s = None ->
                action actions hostUrl actionToInstallLink (Some s) = Rejected TypeError)
  /\ (forall n : nat, (length actions <= n)%nat ->
        action actions hostUrl actionToInstallLink (Some (decimal (N.of_nat n)))
        = Rejected TypeError)
  /\ (actions = [] -> loader actions hostUrl actionToInstallLink = Rejected TypeError).
Proof.
  split; [ | split; [reflexivity | split; [ | split]]].
  - intros a rest ->. split.
    + unfold loader, at_. cbn [Z.leb Z.compare Z.to_nat lookup list_lookup length].
      destruct rest as [ | b rest].
      * reflexivity.
      * rewrite (proj2 (Z.ltb_lt 1 _)) by (cbn [length]; lia). reflexivity.
    + intros Hne. destruct rest; [congruence | eexists; reflexivity].
  - intros s Hs. unfold action. cbn [default from_option id]. rewrite Hs. reflexivity.
  - intros n Hn. unfold action. cbn [default from_option id].
    rewrite parseInt_decimal_aux. unfold at_.
    rewrite (proj2 (Z.leb_le 0 _)) by lia.
    replace (Z.to_nat (Z.of_N (N.of_nat n))) with n by lia.
    rewrite (lookup_ge_None_2 actions n Hn). reflexivity.
  - intros ->. reflexivity.
Qed.

End install.

Lemma install_next_wraps_around_witness :
  let mk := fun (name : string) =>
    {| InstallRoute.ca_actionType := lit "post"; InstallRoute.ca_name := lit name;
       InstallRoute.ca_icon := lit "shield"; InstallRoute.ca_postUrl := lit "https://modbot.sh/api";
       InstallRoute.ca_image := lit name ++ lit ".png" |} in
  let actions := [mk "ban"%string; mk "cooldown"%string; mk "hide"%string] in
  actions !! 2%nat = Some (mk "hide"%string)
  /\ InstallRoute.f_postUrl
       <$> (match InstallRoute.action actions (lit "https://modbot.sh") (fun _ => [])
                    (Some (lit "2")) with
            | Fulfilled f => Some f
            | Rejected _ => None
            end)
     = Some (lit "https://modbot.sh/install?index=0").
Proof.
  intros mk actions. split; [reflexivity | ].
  change (lit "2") with (decimal (N.of_nat 2)).
  rewrite (proj1 (install_next_wraps_around actions (lit "https://modbot.sh") (fun _ => [])
                    2 (mk "hide"%string) eq_refl)).
  reflexivity.
Defined.

Lemma install_edges_witness :
  let one := [ {| InstallRoute.ca_actionType := lit "post"; InstallRoute.ca_name := lit "ban";
                  InstallRoute.ca_icon := lit "shield";
                  InstallRoute.ca_postUrl := lit "https://modbot.sh/api";
                  InstallRoute.ca_image := lit "ban.png" |} ] in
  (length one <= 1)%nat
  /\ InstallRoute.action one (lit "https://modbot.sh") (fun _ => []) None
     = Rejected TypeError.
Proof.
  intros one. split; [cbn; lia | ].
  destruct (install_edges one (lit "https://modbot.sh") (fun _ => []))
    as (_ & Hdefault & _ & Hpast & _).
  rewrite Hdefault. exact (Hpast 1%nat ltac:(cbn; lia)).
Defined.

(** ** The menu of a log entry *)

Section menu.

Import LogsRoute LogsScreen.

(** X23.  The log page offers a menu exactly for the entries with action
    "cooldown", "mute", "hideQuietly" and "warnAndHide", and the intent
    each menu posts is one the action handler accepts: "end-cooldown" for
    a cooldown, "unmute" for a mute, "unhide" for the two kinds of
    hiding. *)
Theorem menu_posts_an_accepted_intent (a : jsstring) :
  (is_Some (menuIntent a) <->
   a ∈ [lit "cooldown"; lit "mute"; lit "hideQuietly"; lit "warnAndHide"])
  /\ (forall v, menuIntent a = Some v ->
        exists i, parseIntent v = Some i
                  /\ (a = lit "cooldown" -> i = EndCooldown)
                  /\ (a = lit "mute" -> i = Unmute)
                  /\ (a = lit "hideQuietly" \/ a = lit "warnAndHide" -> i = Unhide)).
Proof.
  unfold menuIntent.
  destruct (bool_decide (a ∈ _)) eqn:Hin.
  - apply bool_decide_eq_true in Hin. pose proof Hin as Hin'. set_unfold in Hin'.
    split.
    + split; [intros _; exact Hin | intros _].
      destruct Hin' as [-> | [-> | [-> | [-> | []]]]]; vm_compute; eauto.
    + intros v Hv.
      destruct Hin' as [-> | [-> | [-> | [-> | []]]]];
        vm_compute in Hv; injection Hv as <-;
        eexists; (split; [vm_compute; reflexivity | ]);
        (repeat split; intros H; try reflexivity;
         try (vm_compute in H; discriminate);
         try (destruct H as [H | H]; vm_compute in H; discriminate)).
  - apply bool_decide_eq_false in Hin. split.
    + split; [intros [v Hv]; discriminate | intros H; contradiction].
    + intros v Hv. discriminate.
Qed.

Lemma menu_posts_an_accepted_intent_witness :
  menuIntent (lit "warnAndHide") = Some (lit "unhide")
  /\ exists i, parseIntent (lit "unhide") = Some i /\ i = Unhide.
Proof.
  split; [vm_compute; reflexivity | ].
  destruct (proj2 (menu_posts_an_accepted_intent (lit "warnAndHide")) (lit "unhide")
              ltac:(vm_compute; reflexivity))
    as (i & Hi & _ & _ & Hhide).
  exists i. split; [exact Hi | ]. apply Hhide. right. reflexivity.
Defined.

End menu.

(** ** Worked instances *)

Lemma manual_action_appends_one_entry_at_most_witness :
  let w := Sample.world Sample.bob true in
  let req := Sample.post 0 "unmute" in
  exists extra,
    moderationLog (LogsRoute.action w req Sample.db0).2 = moderationLog Sample.db0 ++ extra
    /\ length extra = 1%nat
    /\ forall e, e ∈ extra ->
         LogsScreen.menuIntent (log_action e) = None /\ log_createdAt e = 1000.
Proof.
  intros w req.
  destruct (proj1 (manual_action_appends_one_entry_at_most w req Sample.db0))
    as (extra & Heq & Hlen & Hall).
  exists extra. split; [exact Heq | ]. split.
  - apply (f_equal (@length _)) in Heq. rewrite length_app in Heq.
    assert (H5 : length (moderationLog (LogsRoute.action w req Sample.db0).2) = 5%nat)
      by (vm_compute; reflexivity).
    assert (H4 : length (moderationLog Sample.db0) = 4%nat) by reflexivity.
    lia.
  - intros e He. destruct (Hall e He) as (_ & Ht & _ & _ & Hmenu). auto.
Defined.

Lemma who_can_execute_an_action_witness :
  let delegates :=
    [ {| UtilsHelpers.delegate_fid := Sample.carol;
         UtilsHelpers.delegate_channelId := Sample.memes;
         UtilsHelpers.delegate_permissions := lit "action:mute,action:cooldown";
         UtilsHelpers.delegate_isCohostRole := false |} ] in
  let contains := fun hay needle : jsstring =>
    UtilsHelpers.search (fun s => bool_decide (UtilsHelpers.stripPrefix needle s <> None)) hay in
  let permission := fun a : jsstring => lit "action:" ++ a in
  UtilsHelpers.canUserExecuteAction permission contains delegates
    Sample.carol Sample.memes (lit "mute") Sample.db0
  = (Fulfilled true, Sample.db0)
  /\ UtilsHelpers.canUserExecuteAction permission contains delegates
       Sample.carol Sample.memes (lit "ban") Sample.db0
     = (Fulfilled false, Sample.db0).
Proof.
  intros delegates contains permission.
  destruct (who_can_execute_an_action permission contains delegates
              Sample.carol Sample.memes (lit "mute") Sample.db0) as (b1 & H1 & _).
  destruct (who_can_execute_an_action permission contains delegates
              Sample.carol Sample.memes (lit "ban") Sample.db0) as (b2 & H2 & _).
  assert (E1 : (UtilsHelpers.canUserExecuteAction permission contains delegates
                  Sample.carol Sample.memes (lit "mute") Sample.db0).1 = Fulfilled b1)
    by (rewrite H1; reflexivity).
  assert (E2 : (UtilsHelpers.canUserExecuteAction permission contains delegates
                  Sample.carol Sample.memes (lit "ban") Sample.db0).1 = Fulfilled b2)
    by (rewrite H2; reflexivity).
  vm_compute in E1. vm_compute in E2.
  injection E1 as <-. injection E2 as <-.
  split; [exact H1 | exact H2].
Defined.

Lemma isCastHash_finds_a_hash_anywhere_witness :
  UtilsHelpers.isCastHash
    (lit "see 0x8ce608ce2b5004397faef1556bfe33bdfbe4696d please") = true
  /\ (42 <= length (lit "see 0x8ce608ce2b5004397faef1556bfe33bdfbe4696d please"))%nat.
Proof.
  assert (H : UtilsHelpers.isCastHash
                (lit "see 0x8ce608ce2b5004397faef1556bfe33bdfbe4696d please") = true).
  { apply (proj1 (isCastHash_finds_a_hash_anywhere _)).
    exists (lit "see "), (lit "8ce608ce2b5004397faef1556bfe33bdfbe4696d"), (lit " please").
    split; [reflexivity | ]. split; [reflexivity | ].
    refine (bool_decide_unpack (Forall _ _) _). vm_compute. exact I. }
  split; [exact H | ].
  exact (proj2 (isCastHash_finds_a_hash_anywhere _) H).
Defined.

Lemma isWarpcastCastUrl_finds_a_link_anywhere_witness :
  UtilsHelpers.isWarpcastCastUrl (lit "https://warpcast-com/dwr/0x0de97199 (copied)") = true.
Proof.
  apply (proj2 (isWarpcastCastUrl_finds_a_link_anywhere _)).
  exists [], 45%N, (lit "dwr"), (lit "0de97199"), (lit " (copied)").
  split; [reflexivity | ]. split; [reflexivity | ]. split; [discriminate | ].
  split.
  - refine (bool_decide_unpack (Forall _ _) _). vm_compute. exact I.
  - split; [reflexivity | ].
    refine (bool_decide_unpack (Forall _ _) _). vm_compute. exact I.
Defined.
